(** * cryptsetup-util: the libcryptsetup glue of src/shared/cryptsetup-util.c

    A shallow embedding of the glue layer between systemd and
    libcryptsetup: the backend availability gate [dlopen_cryptsetup], the
    logging bridge, the minimal PBKDF policy and the LUKS2 token helpers.

    C [int] results are integers in [Z]; a negative result is a negated
    errno, as in the source.  The calls into the dynamic loader, into
    libcryptsetup and into the logger are recorded in a trace, so that
    statements about which calls an operation issues can be made; the JSON
    library and [safe_atoi] are functions of their arguments. *)

From Stdlib Require Import ZArith Lia Bool Ascii String.
From stdpp Require Import base strings list pretty gmap.

Set Warnings "-register-all".
Open Scope Z_scope.

(** ** Constants of the C environment *)

(** errno values of Linux (errno.h). *)
Module Errno.
Definition ENOENT : Z := 2.
Definition ENOMEM : Z := 12.
Definition EINVAL : Z := 22.
Definition ENOSPC : Z := 28.
Definition ERANGE : Z := 34.
Definition EOPNOTSUPP : Z := 95.
Definition ESHUTDOWN : Z := 108.
Definition EMEDIUMTYPE : Z := 124.
End Errno.
Import Errno.

(** syslog priorities (syslog.h). *)
Module Syslog.
Definition LOG_ERR : Z := 3.
Definition LOG_NOTICE : Z := 5.
Definition LOG_INFO : Z := 6.
Definition LOG_DEBUG : Z := 7.
End Syslog.
Import Syslog.

(** Constants of libcryptsetup.h. *)
Module Libcryptsetup.
Definition CRYPT_LOG_NORMAL : Z := 0.
Definition CRYPT_LOG_ERROR : Z := 1.
Definition CRYPT_LOG_VERBOSE : Z := 2.
Definition CRYPT_LOG_DEBUG : Z := -1.
Definition CRYPT_DEBUG_ALL : Z := -1.
Definition CRYPT_DEBUG_NONE : Z := 0.
Definition CRYPT_ANY_TOKEN : Z := -1.
Definition CRYPT_KDF_PBKDF2 : string := "pbkdf2".
Definition CRYPT_PBKDF_ITER_TIME_SET : Z := Z.shiftl 1 0.
Definition CRYPT_PBKDF_NO_BENCHMARK : Z := Z.shiftl 1 1.
End Libcryptsetup.
Import Libcryptsetup.

(** The error taxonomy of the specification, as the results the source
    returns for it (comment of [cryptsetup_get_token_as_json], and the
    [#else] branch of [dlopen_cryptsetup]). *)
Definition IndexInvalid : Z := - EINVAL.
Definition NotFound : Z := - ENOENT.
Definition TypeMismatch : Z := - EMEDIUMTYPE.
Definition Unsupported : Z := - EOPNOTSUPP.

(** ** The JSON value tree *)

(** Modelled from the spec: the JSON library (sd-json) is not part of the
    sources at hand; the specification lists it as an external
    collaborator offering "parse text to a tree, navigate by key/index,
    query scalar type and string value, serialize tree to compact text".
    The tree and the navigation functions are given here; parsing and
    serialisation stay parameters of the development.  Numbers are
    integers: no function of this file looks into a number. *)
Inductive sd_json_variant : Type :=
| JNull
| JBoolean (b : bool)
| JInteger (z : Z)
| JString (s : string)
| JArray (elems : list sd_json_variant)
| JObject (fields : list (string * sd_json_variant)).

Fixpoint assoc {A : Type} (key : string) (l : list (string * A)) : option A :=
  match l with
  | [] => None
  | (k, a) :: l' => if String.eqb k key then Some a else assoc key l'
  end.

(** [sd_json_variant_by_key]: the member of an object, NULL (here [None])
    when [v] is no object or has no such member. *)
Definition sd_json_variant_by_key (v : sd_json_variant) (key : string)
  : option sd_json_variant :=
  match v with
  | JObject fields => assoc key fields
  | _ => None
  end.

Definition sd_json_variant_is_array (v : sd_json_variant) : bool :=
  match v with JArray _ => true | _ => false end.

Definition sd_json_variant_is_string (v : sd_json_variant) : bool :=
  match v with JString _ => true | _ => false end.

(** Number of elements of a container: an object counts its keys and its
    values. *)
Definition sd_json_variant_elements (v : sd_json_variant) : Z :=
  match v with
  | JArray elems => Z.of_nat (length elems)
  | JObject fields => 2 * Z.of_nat (length fields)
  | _ => 0
  end.

Definition sd_json_variant_by_index (v : sd_json_variant) (i : nat)
  : option sd_json_variant :=
  match v with
  | JArray elems => elems !! i
  | JObject fields =>
      match fields !! (i / 2)%nat with
      | Some (k, a) => Some (if Nat.even i then JString k else a)
      | None => None
      end
  | _ => None
  end.

(** The string of a string variant, NULL (here [None]) for any other. *)
Definition sd_json_variant_string (v : sd_json_variant) : option string :=
  match v with JString s => Some s | _ => None end.

(** [streq_ptr]: string equality on possibly-NULL pointers. *)
Definition streq_ptr (a b : option string) : bool :=
  match a, b with
  | Some x, Some y => String.eqb x y
  | None, None => true
  | _, _ => false
  end.

(** ** cryptsetup_get_keyslot_from_token *)

Section Keyslot.

(** [safe_atoi] (parse-util.c) is outside this file: it returns a
    result code and, when that is not negative, the parsed [int]. *)
Variable safe_atoi : string -> Z * Z.

Definition cryptsetup_get_keyslot_from_token (v : sd_json_variant) : Z :=
  match sd_json_variant_by_key v "keyslots" with
  | None => - ENOENT
  | Some w =>
      if negb (sd_json_variant_is_array w)
         || negb (sd_json_variant_elements w =? 1)
      then - EMEDIUMTYPE
      else
        match sd_json_variant_by_index w 0 with
        | None => - ENOENT
        | Some w0 =>
            if negb (sd_json_variant_is_string w0) then - EMEDIUMTYPE
            else
              match sd_json_variant_string w0 with
              | None => - EMEDIUMTYPE (* not reached: w0 is a string *)
              | Some s =>
                  let '(r, keyslot) := safe_atoi s in
                  if r <? 0 then r
                  else if keyslot <? 0 then - EINVAL
                  else keyslot
              end
        end
  end.

End Keyslot.

(** ** The world outside this file *)

(** A library handle as returned by the dynamic loader ([void *]), and a
    non-NULL [struct crypt_device *]. *)
Definition dl_handle : Type := N.
Definition crypt_device : Type := N.

(** [struct crypt_pbkdf_type] of libcryptsetup.h. *)
Record crypt_pbkdf_type : Type := mk_pbkdf {
  pbkdf_type : string;
  pbkdf_hash : string;
  pbkdf_time_ms : Z;
  pbkdf_iterations : Z;
  pbkdf_max_memory_kb : Z;
  pbkdf_parallel_threads : Z;
  pbkdf_flags : Z
}.

(** Everything this file calls and does not define.  The build switches
    are part of it.  [dlopen_many_sym_or_warn] (dlfcn-util.c) receives the
    address of [cryptsetup_dl], hence reads and writes that variable; the
    [sym_] functions are libcryptsetup's, reached through the resolved
    symbols.  Functions with an [int] result and an out-parameter return
    both; the out-value is meaningful when the result is not negative. *)
Class Collaborators : Type := {
  HAVE_LIBCRYPTSETUP : bool;
  DEBUG_LOGGING : bool;
  loader_state : Type;
  backend_state : Type;
  dlopen_many_sym_or_warn :
    option dl_handle -> loader_state -> Z * option dl_handle * loader_state;
  sym_crypt_set_log_callback :
    option crypt_device -> backend_state -> backend_state;
  sym_crypt_set_debug_level : Z -> backend_state -> backend_state;
  sym_crypt_set_pbkdf_type :
    option crypt_device -> crypt_pbkdf_type -> backend_state -> Z * backend_state;
  sym_crypt_token_json_get :
    option crypt_device -> Z -> backend_state -> Z * string;
  sym_crypt_token_json_set :
    option crypt_device -> Z -> string -> backend_state -> Z * backend_state;
  sd_json_parse : string -> Z -> Z * sd_json_variant;
  sd_json_variant_format : sd_json_variant -> Z -> Z * string
}.

(** Calls that leave this file, in the order they are made. *)
Inductive event : Type :=
| EvLog (level : Z) (msg : string)
| EvResolve (r : Z)
| EvSetLogCallback (cd : option crypt_device)
| EvSetDebugLevel (level : Z)
| EvSetPbkdfType (cd : option crypt_device) (p : crypt_pbkdf_type)
| EvTokenJsonGet (cd : option crypt_device) (idx : Z)
| EvTokenJsonSet (cd : option crypt_device) (token : Z) (text : string).

Definition is_resolve (e : event) : bool :=
  match e with EvResolve _ => true | _ => false end.

Definition is_token_set (e : event) : bool :=
  match e with EvTokenJsonSet _ _ _ => true | _ => false end.

Definition is_log_install (e : event) : bool :=
  match e with
  | EvSetLogCallback _ | EvSetDebugLevel _ => true
  | _ => false
  end.

(** The events the gate itself may cause. *)
Definition is_gate_event (e : event) : bool :=
  match e with
  | EvLog _ _ | EvResolve _ | EvSetLogCallback _ | EvSetDebugLevel _ => true
  | _ => false
  end.

Section Glue.

Context `{Collaborators}.

(** The state the C code runs in: the static [cryptsetup_dl], the state
    of the dynamic loader and of libcryptsetup, and the calls made so
    far. *)
Record world : Type := mk_world {
  cryptsetup_dl : option dl_handle;
  loader : loader_state;
  backend : backend_state;
  trace : list event
}.

(** A computation either returns a value and a new world or runs out of
    fuel ([None]); fuel bounds the mutual recursion of
    [dlopen_cryptsetup] and [cryptsetup_enable_logging]. *)
Definition M (A : Type) : Type := world -> option (A * world).

Definition ret {A : Type} (a : A) : M A := fun w => Some (a, w).

Definition bind {A B : Type} (m : M A) (k : A -> M B) : M B :=
  fun w => match m w with
           | Some (a, w') => k a w'
           | None => None
           end.

Definition emit (e : event) : M unit :=
  fun w => Some (tt, mk_world (cryptsetup_dl w) (loader w) (backend w)
                              (trace w ++ [e])).

(** A call into libcryptsetup that changes its state and returns [r]. *)
Definition call_backend {A : Type} (e : event)
           (f : backend_state -> A * backend_state) : M A :=
  fun w => let '(a, b) := f (backend w) in
           Some (a, mk_world (cryptsetup_dl w) (loader w) b (trace w ++ [e])).

(** The world after further events that leave the backend in state [b]. *)
Definition after_call (w : world) (b : backend_state) (evs : list event) : world :=
  mk_world (cryptsetup_dl w) (loader w) b (trace w ++ evs).

End Glue.

Declare Scope glue_scope.
Delimit Scope glue_scope with glue.
Notation "x <- m ;; k" := (bind m (fun x => k))
  (at level 100, m at next level, right associativity) : glue_scope.
Notation "m ;;; k" := (bind m (fun _ => k))
  (at level 100, right associativity) : glue_scope.

(** ** Logging macros *)

(** [ERRNO_VALUE] and [SYNTHETIC_ERRNO] of log.h (a header outside this
    file): bit 30 marks an errno made up by the caller, and the logging
    macros return the negated errno without that bit; a result that would
    not be negative is replaced by -ESHUTDOWN. *)
Definition SYNTHETIC_ERRNO (num : Z) : Z := Z.lor (Z.abs num) (Z.shiftl 1 30).
Definition ERRNO_VALUE (val : Z) : Z :=
  Z.land (Z.abs val) (Z.lnot (Z.shiftl 1 30)).
Definition log_errno_result (error : Z) : Z :=
  let e := - ERRNO_VALUE error in
  if e <? 0 then e else - ESHUTDOWN.

Section Operations.

Context `{Collaborators}.
Open Scope glue_scope.

(** The host logger is a sink: a call to it is an event. *)
Definition log_full (level : Z) (msg : string) : M unit :=
  emit (EvLog level msg).

Definition log_error (msg : string) : M unit := log_full LOG_ERR msg.
Definition log_debug (msg : string) : M unit := log_full LOG_DEBUG msg.

Definition log_full_errno (level error : Z) (msg : string) : M Z :=
  log_full level msg ;;; ret (log_errno_result error).

Definition log_error_errno : Z -> string -> M Z := log_full_errno LOG_ERR.
Definition log_debug_errno : Z -> string -> M Z := log_full_errno LOG_DEBUG.

(** *** cryptsetup_log_glue *)

Definition cryptsetup_log_glue (level : Z) (msg : string) : M unit :=
  level' <-
    (if level =? CRYPT_LOG_NORMAL then ret LOG_NOTICE
     else if level =? CRYPT_LOG_ERROR then ret LOG_ERR
     else if level =? CRYPT_LOG_VERBOSE then ret LOG_INFO
     else if level =? CRYPT_LOG_DEBUG then ret LOG_DEBUG
     else
       log_error ("Unknown libcryptsetup log level: " +:+ pretty level) ;;;
       ret LOG_ERR) ;;
  log_full level' msg.

(** *** dlopen_cryptsetup and cryptsetup_enable_logging *)

(** The call [dlopen_many_sym_or_warn(&cryptsetup_dl, ...)]. *)
Definition resolve_symbols : M Z :=
  fun w =>
    let '(r, d, l) := dlopen_many_sym_or_warn (cryptsetup_dl w) (loader w) in
    Some (r, mk_world d l (backend w) (trace w ++ [EvResolve r])).

(** The body of [cryptsetup_enable_logging], over the gate it calls. *)
Definition cryptsetup_enable_logging_with
           (gate : M Z) (cd : option crypt_device) : M unit :=
  r <- gate ;;
  if r <? 0 then ret tt
  else
    let level := if DEBUG_LOGGING then CRYPT_DEBUG_ALL else CRYPT_DEBUG_NONE in
    call_backend (EvSetLogCallback cd)
                 (fun b => (tt, sym_crypt_set_log_callback cd b)) ;;;
    call_backend (EvSetDebugLevel level)
                 (fun b => (tt, sym_crypt_set_debug_level level b)).

Fixpoint dlopen_cryptsetup (fuel : nat) : M Z :=
  match fuel with
  | O => fun _ => None
  | S fuel' =>
      if HAVE_LIBCRYPTSETUP then
        r <- resolve_symbols ;;
        if r <=? 0 then ret r
        else
          cryptsetup_enable_logging_with (dlopen_cryptsetup fuel') None ;;;
          ret 1
      else
        log_error_errno (SYNTHETIC_ERRNO EOPNOTSUPP)
                        "cryptsetup support is not compiled in."
  end.

Definition cryptsetup_enable_logging
           (fuel : nat) (cd : option crypt_device) : M unit :=
  cryptsetup_enable_logging_with (dlopen_cryptsetup fuel) cd.

(** *** cryptsetup_set_minimal_pbkdf *)

Definition minimal_pbkdf : crypt_pbkdf_type :=
  {| pbkdf_type := CRYPT_KDF_PBKDF2;
     pbkdf_hash := "sha512";
     pbkdf_time_ms := 0;
     pbkdf_iterations := 1000;
     pbkdf_max_memory_kb := 0;
     pbkdf_parallel_threads := 0;
     pbkdf_flags := CRYPT_PBKDF_NO_BENCHMARK |}.

Definition cryptsetup_set_minimal_pbkdf
           (fuel : nat) (cd : option crypt_device) : M Z :=
  r <- dlopen_cryptsetup fuel ;;
  if r <? 0 then ret r
  else
    r <- call_backend (EvSetPbkdfType cd minimal_pbkdf)
                      (sym_crypt_set_pbkdf_type cd minimal_pbkdf) ;;
    if r <? 0 then ret r
    else ret 0.

(** *** cryptsetup_get_token_as_json *)

(** The [if (verify_type)] block: the error it returns with, if any. *)
Definition verify_token_type
           (v : sd_json_variant) (verify_type : option string) : option Z :=
  match verify_type with
  | Some t =>
      match sd_json_variant_by_key v "type" with
      | None => Some (- EINVAL)
      | Some w =>
          if negb (streq_ptr (sd_json_variant_string w) (Some t))
          then Some (- EMEDIUMTYPE)
          else None
      end
  | None => None
  end.

(** [want_ret] says whether the out-parameter [ret] is non-NULL; the
    second component of the result is what is stored through it. *)
Definition cryptsetup_get_token_as_json
           (fuel : nat) (cd : crypt_device) (idx : Z)
           (verify_type : option string) (want_ret : bool)
  : M (Z * option sd_json_variant) :=
  r <- dlopen_cryptsetup fuel ;;
  if r <? 0 then ret (r, None)
  else
    got <- call_backend (EvTokenJsonGet (Some cd) idx)
                        (fun b => (sym_crypt_token_json_get (Some cd) idx b, b)) ;;
    let '(r, text) := got in
    if r <? 0 then ret (r, None)
    else
      let '(r, v) := sd_json_parse text 0 in
      if r <? 0 then ret (r, None)
      else
        match verify_token_type v verify_type with
        | Some e => ret (e, None)
        | None => ret (0, if want_ret then Some v else None)
        end.

(** *** cryptsetup_add_token_json *)

Definition cryptsetup_add_token_json
           (fuel : nat) (cd : option crypt_device) (v : sd_json_variant) : M Z :=
  r <- dlopen_cryptsetup fuel ;;
  if r <? 0 then ret r
  else
    let '(r, text) := sd_json_variant_format v 0 in
    if r <? 0 then
      log_debug_errno r "Failed to format token data for LUKS: %m"
    else
      log_debug ("Adding token text <" +:+ text +:+ ">") ;;;
      r <- call_backend (EvTokenJsonSet cd CRYPT_ANY_TOKEN text)
                        (sym_crypt_token_json_set cd CRYPT_ANY_TOKEN text) ;;
      if r <? 0 then
        log_debug_errno r "Failed to write token data to LUKS: %m"
      else ret 0.

End Operations.

(** ** Observations on a world, and the contracts of the collaborators *)

(** Number of calls of the resolution helper made so far. *)
Definition resolutions `{Collaborators} (w : world) : nat :=
  length (List.filter is_resolve (trace w)).

(** The events an operation added when it took [w] to [w']. *)
Definition new_events `{Collaborators} (w w' : world) : list event :=
  drop (length (trace w)) (trace w').

(** What the source expects of [dlopen_many_sym_or_warn] (comment of
    [cryptsetup_enable_logging]: the recursion is broken "via the check for
    'cryptsetup_dl'"): with the handle set it answers 0 and changes
    nothing, and an answer above 0 leaves the handle set. *)
Record loader_contract `{Collaborators} : Prop := {
  loaded_answers_0 :
    forall h l, dlopen_many_sym_or_warn (Some h) l = (0, Some h, l);
  success_sets_handle :
    forall d l r d' l',
      dlopen_many_sym_or_warn d l = (r, d', l') -> 0 < r -> d' <> None
}.

(** What the source expects of libcryptsetup's token calls (comment of
    [cryptsetup_get_token_as_json]: -EINVAL for an index out of range,
    -ENOENT for a token that does not exist), over the token table
    [stored] of a backend state with [token_max] slots; a rejected write
    leaves the table as it was. *)
Record token_contract `{Collaborators}
       (token_max : Z) (stored : backend_state -> Z -> option string) : Prop := {
  get_out_of_range :
    forall cd idx b,
      ~ (0 <= idx < token_max) ->
      fst (sym_crypt_token_json_get cd idx b) = - EINVAL;
  get_absent :
    forall cd idx b,
      0 <= idx < token_max -> stored b idx = None ->
      fst (sym_crypt_token_json_get cd idx b) = - ENOENT;
  get_present :
    forall cd idx b text,
      0 <= idx < token_max -> stored b idx = Some text ->
      0 <= fst (sym_crypt_token_json_get cd idx b)
      /\ snd (sym_crypt_token_json_get cd idx b) = text;
  set_rejected :
    forall cd token text b r b',
      sym_crypt_token_json_set cd token text b = (r, b') -> r < 0 ->
      stored b' = stored b
}.

(** The claim that a failure of the gate is remembered: after a call that
    failed, a further call returns the same error and the resolution
    helper is not called again. *)
Definition failure_is_cached `{Collaborators} : Prop :=
  forall fuel w r w1,
    dlopen_cryptsetup fuel w = Some (r, w1) -> r < 0 ->
    exists w2, dlopen_cryptsetup fuel w1 = Some (r, w2)
               /\ resolutions w2 = resolutions w1.

(** The claim that a token without a "type" member is refused whether or
    not a type to verify was given. *)
Definition typeless_token_always_refused `{Collaborators} : Prop :=
  forall fuel w cd idx verify_type want_ret r text rp v r0 w1,
    dlopen_cryptsetup fuel w = Some (r0, w1) -> 0 <= r0 ->
    sym_crypt_token_json_get (Some cd) idx (backend w1) = (r, text) -> 0 <= r ->
    sd_json_parse text 0 = (rp, v) -> 0 <= rp ->
    sd_json_variant_by_key v "type" = None ->
    exists w', cryptsetup_get_token_as_json fuel cd idx verify_type want_ret w
               = Some ((IndexInvalid, None), w').

(** ** A reference instance of the collaborators

    A small loader, a libcryptsetup with one LUKS2 header, a decimal
    parser and a JSON printer, on which the statements below are run on
    concrete inputs.  The statements themselves hold for every instance of
    [Collaborators]. *)

Module Reference.

(** Decimal [int] parser: an optional minus sign and digits. *)
Definition digit_of (c : ascii) : option Z :=
  let n := Z.of_N (N_of_ascii c) in
  if (48 <=? n) && (n <=? 57) then Some (n - 48) else None.

Fixpoint digits_value (acc : Z) (s : string) : option Z :=
  match s with
  | EmptyString => Some acc
  | String c s' =>
      match digit_of c with
      | Some d => digits_value (10 * acc + d) s'
      | None => None
      end
  end.

Definition safe_atoi (s : string) : Z * Z :=
  let '(neg, body) :=
    match s with
    | String "-"%char s' => (true, s')
    | _ => (false, s)
    end in
  match body with
  | EmptyString => (- EINVAL, 0)
  | _ =>
      match digits_value 0 body with
      | None => (- EINVAL, 0)
      | Some n =>
          let l := if neg : bool then - n else n in
          if (l <? - 2 ^ 31) || (2 ^ 31 - 1 <? l) then (- ERANGE, 0)
          else (0, l)
      end
  end.

(** The dynamic loader: the library is installed or not, and the number
    of times it was asked is counted. *)
Record loader : Type := mk_loader {
  lib_installed : bool;
  dlopen_calls : nat
}.

Definition load_symbols (d : option dl_handle) (l : loader)
  : Z * option dl_handle * loader :=
  match d with
  | Some _ => (0, d, l)
  | None =>
      let l' := mk_loader (lib_installed l) (S (dlopen_calls l)) in
      if lib_installed l then (1, Some 1%N, l')
      else (- EOPNOTSUPP, None, l')
  end.

(** libcryptsetup with one device: its token table, the PBKDF type last
    set, and the logging settings. *)
Record backend : Type := mk_backend {
  tokens : gmap Z string;
  pbkdf : option crypt_pbkdf_type;
  log_callback_set : bool;
  debug_level : Z
}.

(** Number of token slots of a LUKS2 header. *)
Definition token_max : Z := 32.

Definition crypt_set_log_callback (cd : option crypt_device) (b : backend)
  : backend :=
  mk_backend (tokens b) (pbkdf b) true (debug_level b).

Definition crypt_set_debug_level (level : Z) (b : backend) : backend :=
  mk_backend (tokens b) (pbkdf b) (log_callback_set b) level.

Definition crypt_set_pbkdf_type
           (cd : option crypt_device) (p : crypt_pbkdf_type) (b : backend)
  : Z * backend :=
  (0, mk_backend (tokens b) (Some p) (log_callback_set b) (debug_level b)).

Definition crypt_token_json_get
           (cd : option crypt_device) (idx : Z) (b : backend) : Z * string :=
  if (idx <? 0) || (token_max <=? idx) then (- EINVAL, EmptyString)
  else
    match tokens b !! idx with
    | None => (- ENOENT, EmptyString)
    | Some text => (idx, text)
    end.

Definition free_token (b : backend) : option Z :=
  snd <$> list_find (fun i => tokens b !! i = None) (seqZ 0 token_max).

Definition crypt_token_json_set
           (cd : option crypt_device) (token : Z) (text : string) (b : backend)
  : Z * backend :=
  let slot := if token =? CRYPT_ANY_TOKEN then free_token b
              else if (token <? 0) || (token_max <=? token) then None
              else Some token in
  match slot with
  | None => (- EINVAL, b)
  | Some i =>
      (i, mk_backend (<[i := text]> (tokens b)) (pbkdf b)
                     (log_callback_set b) (debug_level b))
  end.

(** Compact JSON text of a tree whose strings need no escaping. *)
Definition dquote : string := String (ascii_of_nat 34) EmptyString.

Fixpoint format (v : sd_json_variant) : string :=
  match v with
  | JNull => "null"
  | JBoolean b => if b then "true" else "false"
  | JInteger z => pretty z
  | JString s => dquote +:+ s +:+ dquote
  | JArray elems =>
      "[" +:+
      (fix go (l : list sd_json_variant) : string :=
         match l with
         | [] => EmptyString
         | x :: l' =>
             format x +:+
             match l' with [] => EmptyString | _ => "," +:+ go l' end
         end) elems +:+ "]"
  | JObject fields =>
      "{" +:+
      (fix go (l : list (string * sd_json_variant)) : string :=
         match l with
         | [] => EmptyString
         | (k, x) :: l' =>
             dquote +:+ k +:+ dquote +:+ ":" +:+ format x +:+
             match l' with [] => EmptyString | _ => "," +:+ go l' end
         end) fields +:+ "}"
  end.

Definition json_format (v : sd_json_variant) (flags : Z) : Z * string :=
  let text := format v in (Z.of_nat (String.length text), text).

(** Parser for the texts of a finite catalogue of trees: the tree whose
    compact text is the input. *)
Definition json_parse (catalogue : list sd_json_variant)
           (text : string) (flags : Z)
  : Z * sd_json_variant :=
  match list_find (fun v => format v = text) catalogue with
  | Some (_, v) => (0, v)
  | None => (- EINVAL, JNull)
  end.

(** Tokens used below. *)
Definition token_fido2 : sd_json_variant :=
  JObject [("type", JString "systemd-fido2"); ("keyslots", JArray [JString "1"])].
Definition token_tpm2 : sd_json_variant :=
  JObject [("type", JString "systemd-tpm2"); ("keyslots", JArray [JString "3"])].
Definition token_typeless : sd_json_variant :=
  JObject [("keyslots", JArray [JString "1"])].
Definition token_odd_type : sd_json_variant :=
  JObject [("type", JInteger 7); ("keyslots", JArray [JString "2"])].
Definition catalogue : list sd_json_variant :=
  [token_fido2; token_tpm2; token_typeless; token_odd_type].

(** A serialiser that is out of memory. *)
Definition json_format_oom (v : sd_json_variant) (flags : Z) : Z * string :=
  (- ENOMEM, EmptyString).

Definition collaborators_with
           (have debug : bool) (fmt : sd_json_variant -> Z -> Z * string)
  : Collaborators := {|
  HAVE_LIBCRYPTSETUP := have;
  DEBUG_LOGGING := debug;
  loader_state := loader;
  backend_state := backend;
  dlopen_many_sym_or_warn := load_symbols;
  sym_crypt_set_log_callback := crypt_set_log_callback;
  sym_crypt_set_debug_level := crypt_set_debug_level;
  sym_crypt_set_pbkdf_type := crypt_set_pbkdf_type;
  sym_crypt_token_json_get := crypt_token_json_get;
  sym_crypt_token_json_set := crypt_token_json_set;
  sd_json_parse := json_parse catalogue;
  sd_json_variant_format := fmt
|}.

Definition collaborators (have debug : bool) : Collaborators :=
  collaborators_with have debug json_format.

(** A LUKS2 header holding the catalogue's tokens at 0, 1, 2 and 4 (slot 3
    is free), and one with no free slot. *)
Definition header : backend :=
  mk_backend (<[0 := format token_fido2]>
                (<[1 := format token_tpm2]>
                   (<[2 := format token_typeless]>
                      (<[4 := format token_odd_type]> ∅))))
             None false 0.

Definition full_header : backend :=
  mk_backend (list_to_map ((fun i => (i, format token_fido2)) <$> seqZ 0 token_max))
             None false 0.

(** The process at start: nothing loaded, nothing called. *)
Definition start_with (have debug installed : bool)
           (fmt : sd_json_variant -> Z -> Z * string) (b : backend)
  : @world (collaborators_with have debug fmt) :=
  @mk_world (collaborators_with have debug fmt) None (mk_loader installed 0) b [].

Definition start (have debug installed : bool) : @world (collaborators have debug) :=
  start_with have debug installed json_format header.

(** The process after [n] calls of the gate with the library absent. *)
Definition failed (n : nat) : @world (collaborators true false) :=
  @mk_world (collaborators true false) None (mk_loader false n) header
            (replicate n (EvResolve (- EOPNOTSUPP))).

(** The process after a first successful call of the gate, in a build
    without debug logging. *)
Definition loaded_with (fmt : sd_json_variant -> Z -> Z * string) (b : backend)
  : @world (collaborators_with true false fmt) :=
  @mk_world (collaborators_with true false fmt)
            (Some 1%N) (mk_loader true 1)
            (crypt_set_debug_level CRYPT_DEBUG_NONE
                                   (crypt_set_log_callback None b))
            [EvResolve 1; EvResolve 0; EvSetLogCallback None;
             EvSetDebugLevel CRYPT_DEBUG_NONE].

Definition loaded : @world (collaborators true false) :=
  loaded_with json_format header.

End Reference.

(** ** The token-path hook of developer builds *)

Section TokenPath.

(** [secure_getenv] and [dlsym] are the C library's.  A resolved function
    pointer is the function it calls: here the original
    [crypt_token_external_path] of libcryptsetup, which takes no argument
    and returns a path or NULL. *)
Variable secure_getenv : string -> option string.
Variable dlsym : dl_handle -> string -> option (unit -> option string).

(** [my_crypt_token_external_path], compiled in with BUILD_MODE_DEVELOPER;
    [dl] is the static [cryptsetup_dl] at the time of the call. *)
Definition my_crypt_token_external_path (dl : option dl_handle)
  : option string :=
  match secure_getenv "SYSTEMD_CRYPTSETUP_TOKEN_PATH" with
  | Some e => Some e
  | None =>
      match dl with
      | Some handle =>
          match dlsym handle "crypt_token_external_path" with
          | Some func => func tt
          | None => None
          end
      | None => None
      end
  end.

End TokenPath.

(** ** Further observations on a world *)

(** The debug level the build asks of libcryptsetup. *)
Definition build_debug_level `{Collaborators} : Z :=
  if DEBUG_LOGGING then CRYPT_DEBUG_ALL else CRYPT_DEBUG_NONE.

(** What an event caused by the gate looks like: the helper is called
    only in a build with libcryptsetup, the one log line is that of a build
    without it, the log callback is installed for no device (the default
    of the process) and the debug level is that of the build. *)
Definition gate_event_ok `{Collaborators} (e : event) : Prop :=
  match e with
  | EvResolve _ => HAVE_LIBCRYPTSETUP = true
  | EvLog level msg =>
      HAVE_LIBCRYPTSETUP = false /\ level = LOG_ERR
      /\ msg = "cryptsetup support is not compiled in."
  | EvSetLogCallback cd => cd = None
  | EvSetDebugLevel level => level = build_debug_level
  | _ => False
  end.

(** Further reference instances. *)
Module Scenarios.

(** A resolution helper that reports a fresh load on every call and never
    looks at the handle. *)
Definition restless_load (d : option dl_handle) (l : Reference.loader)
  : Z * option dl_handle * Reference.loader :=
  (1, Some 1%N, Reference.mk_loader (Reference.lib_installed l)
                                    (S (Reference.dlopen_calls l))).

Definition restless : Collaborators := {|
  HAVE_LIBCRYPTSETUP := true;
  DEBUG_LOGGING := false;
  loader_state := Reference.loader;
  backend_state := Reference.backend;
  dlopen_many_sym_or_warn := restless_load;
  sym_crypt_set_log_callback := Reference.crypt_set_log_callback;
  sym_crypt_set_debug_level := Reference.crypt_set_debug_level;
  sym_crypt_set_pbkdf_type := Reference.crypt_set_pbkdf_type;
  sym_crypt_token_json_get := Reference.crypt_token_json_get;
  sym_crypt_token_json_set := Reference.crypt_token_json_set;
  sd_json_parse := Reference.json_parse Reference.catalogue;
  sd_json_variant_format := Reference.json_format
|}.

Definition restless_start : @world restless :=
  @mk_world restless None (Reference.mk_loader true 0) Reference.header [].

(** An environment with the token path set, one without, and a loaded
    libcryptsetup that exports the original function. *)
Definition env_with_path (name : string) : option string :=
  if String.eqb name "SYSTEMD_CRYPTSETUP_TOKEN_PATH"
  then Some "/home/dev/build" else None.

Definition env_empty (name : string) : option string := None.

Definition exported (h : dl_handle) (symbol : string)
  : option (unit -> option string) :=
  if String.eqb symbol "crypt_token_external_path"
  then Some (fun _ => Some "/usr/lib/cryptsetup") else None.

End Scenarios.

(** * Properties *)

(** ** Arithmetic of the logging macros *)

Lemma land_clear_bit_30 (a : Z) :
  0 <= a < 2 ^ 30 -> Z.land a (Z.lnot (Z.shiftl 1 30)) = a.
Proof.
  intros Ha. rewrite <- Z.ldiff_land. apply Z.bits_inj'. intros n Hn.
  rewrite Z.ldiff_spec, Z.shiftl_1_l.
  destruct (Z.eq_dec n 30) as [-> | Hne].
  - rewrite Z.pow2_bits_true by lia. rewrite andb_false_r.
    rewrite <- (Z.mod_small a (2 ^ 30)) by lia.
    symmetry. apply Z.mod_pow2_bits_high. lia.
  - rewrite Z.pow2_bits_false by lia. apply andb_true_r.
Qed.

Lemma ERRNO_VALUE_errno (r : Z) : - 2 ^ 30 < r < 0 -> - ERRNO_VALUE r = r.
Proof.
  intros Hr. unfold ERRNO_VALUE.
  rewrite land_clear_bit_30 by lia. lia.
Qed.

(** The logging macros hand a negative errno back as it is. *)
Lemma log_errno_result_errno (r : Z) :
  - 2 ^ 30 < r < 0 -> log_errno_result r = r.
Proof.
  intros Hr. unfold log_errno_result. rewrite (ERRNO_VALUE_errno r Hr).
  destruct (Z.ltb_spec r 0); [reflexivity | lia].
Qed.

Lemma log_errno_result_synthetic_EOPNOTSUPP :
  log_errno_result (SYNTHETIC_ERRNO EOPNOTSUPP) = - EOPNOTSUPP.
Proof. reflexivity. Qed.

(** ** The gate *)

Ltac run :=
  unfold cryptsetup_enable_logging, cryptsetup_enable_logging_with,
    log_debug_errno, log_error_errno, log_full_errno, log_debug, log_error,
    log_full, resolve_symbols, call_backend, emit, bind, ret in *;
  cbn beta iota in *.

Section Gate.

Context `{Collaborators}.

Lemma gate_out_of_fuel (w : world) : dlopen_cryptsetup 0 w = None.
Proof. reflexivity. Qed.

Lemma gate_not_compiled (fuel : nat) (w : world) :
  HAVE_LIBCRYPTSETUP = false ->
  dlopen_cryptsetup (S fuel) w
  = Some (- EOPNOTSUPP,
          mk_world (cryptsetup_dl w) (loader w) (backend w)
                   (trace w ++ [EvLog LOG_ERR "cryptsetup support is not compiled in."])).
Proof. intros Hc. cbn [dlopen_cryptsetup]. rewrite Hc. reflexivity. Qed.

Lemma gate_no_success (fuel : nat) (w : world) (r : Z) d l :
  HAVE_LIBCRYPTSETUP = true ->
  dlopen_many_sym_or_warn (cryptsetup_dl w) (loader w) = (r, d, l) ->
  r <= 0 ->
  dlopen_cryptsetup (S fuel) w
  = Some (r, mk_world d l (backend w) (trace w ++ [EvResolve r])).
Proof.
  intros Hc Hh Hr. cbn [dlopen_cryptsetup]. rewrite Hc. run. rewrite Hh.
  destruct (Z.leb_spec r 0); [reflexivity | lia].
Qed.

(** A result of the gate above 0 is 1. *)
Lemma gate_success_is_1 (fuel : nat) (w : world) (r0 : Z) d l x :
  HAVE_LIBCRYPTSETUP = true ->
  dlopen_many_sym_or_warn (cryptsetup_dl w) (loader w) = (r0, d, l) ->
  0 < r0 ->
  dlopen_cryptsetup (S fuel) w = Some x -> fst x = 1.
Proof.
  intros Hc Hh Hr. cbn [dlopen_cryptsetup]. rewrite Hc. run. rewrite Hh.
  destruct (Z.leb_spec r0 0); [lia |].
  destruct (dlopen_cryptsetup fuel _) as [[r1 w1] |]; [| discriminate].
  destruct (r1 <? 0); intros [= <-]; reflexivity.
Qed.

(** A failing call of the gate: either the build has no libcryptsetup,
    or the resolution helper was called once and its answer returned. *)
Lemma gate_failure_inv (fuel : nat) (w : world) (r : Z) (w1 : world) :
  dlopen_cryptsetup fuel w = Some (r, w1) -> r < 0 ->
  if HAVE_LIBCRYPTSETUP then
    exists d l,
      dlopen_many_sym_or_warn (cryptsetup_dl w) (loader w) = (r, d, l)
      /\ w1 = mk_world d l (backend w) (trace w ++ [EvResolve r])
  else
    r = - EOPNOTSUPP
    /\ w1 = mk_world (cryptsetup_dl w) (loader w) (backend w)
                     (trace w ++ [EvLog LOG_ERR "cryptsetup support is not compiled in."]).
Proof.
  destruct fuel as [| fuel]; [discriminate |]. intros Hg Hr.
  destruct HAVE_LIBCRYPTSETUP eqn:Hc.
  - destruct (dlopen_many_sym_or_warn (cryptsetup_dl w) (loader w))
      as [[r0 d] l] eqn:Hh.
    destruct (Z.leb_spec r0 0) as [Hle | Hgt].
    + rewrite (gate_no_success fuel w r0 d l Hc Hh Hle) in Hg.
      injection Hg as <- <-. eauto.
    + pose proof (gate_success_is_1 fuel w r0 d l _ Hc Hh Hgt Hg) as H1.
      simpl in H1. lia.
  - rewrite (gate_not_compiled fuel w Hc) in Hg. injection Hg as <- <-. auto.
Qed.

(** What a failing call of the gate leaves behind: the backend is
    untouched and one event was added, which is no call into
    libcryptsetup. *)
Lemma gate_failure_effect (fuel : nat) (w : world) (r : Z) (w1 : world) :
  dlopen_cryptsetup fuel w = Some (r, w1) -> r < 0 ->
  backend w1 = backend w
  /\ exists e, trace w1 = trace w ++ [e]
               /\ is_log_install e = false /\ is_token_set e = false
               /\ (forall cd p, e <> EvSetPbkdfType cd p).
Proof.
  intros Hg Hr. pose proof (gate_failure_inv fuel w r w1 Hg Hr) as Hi.
  destruct HAVE_LIBCRYPTSETUP.
  - destruct Hi as (d & l & _ & ->). split; [reflexivity |].
    eexists. repeat split. discriminate.
  - destruct Hi as (_ & ->). split; [reflexivity |].
    eexists. repeat split. discriminate.
Qed.

Lemma resolutions_app (w : world) d l b (evs : list event) :
  resolutions (mk_world d l b (trace w ++ evs))
  = (resolutions w + length (List.filter is_resolve evs))%nat.
Proof.
  unfold resolutions. cbn [trace].
  rewrite List.filter_app, length_app. reflexivity.
Qed.

End Gate.

Section GateTrace.

Context `{Collaborators}.

(** Every returning call of the gate only adds events, all of them the
    gate's own; with libcryptsetup compiled in, the first of them is a
    call of the resolution helper. *)
Lemma gate_trace (fuel : nat) :
  forall (w : world) (r : Z) (w1 : world),
    dlopen_cryptsetup fuel w = Some (r, w1) ->
    exists evs,
      trace w1 = trace w ++ evs
      /\ Forall (fun e => is_gate_event e = true) evs
      /\ (HAVE_LIBCRYPTSETUP = true -> exists r0 rest, evs = EvResolve r0 :: rest).
Proof.
  induction fuel as [| fuel IH]; intros w r w1 Hg; [discriminate |].
  destruct HAVE_LIBCRYPTSETUP eqn:Hc.
  - cbn [dlopen_cryptsetup] in Hg. rewrite Hc in Hg. run.
    destruct (dlopen_many_sym_or_warn (cryptsetup_dl w) (loader w))
      as [[r0 d] l].
    destruct (r0 <=? 0).
    + injection Hg as <- <-. exists [EvResolve r0]. cbn [trace].
      repeat split; eauto.
    + destruct (dlopen_cryptsetup fuel _) as [[r1 w2] |] eqn:Hn;
        [| discriminate].
      destruct (IH _ _ _ Hn) as (evs & Ht & Hall & _). cbn [trace] in Ht.
      destruct (r1 <? 0).
      * injection Hg as <- <-. exists (EvResolve r0 :: evs).
        rewrite Ht, <- app_assoc. repeat split; eauto.
      * injection Hg as <- <-. cbn [trace].
        eexists (EvResolve r0 :: evs ++ [_; _]).
        rewrite Ht. rewrite <- !app_assoc. cbn [app].
        split; [reflexivity |]. split; [| eauto].
        constructor; [reflexivity |]. apply Forall_app. split; [exact Hall |].
        repeat constructor.
  - destruct fuel; rewrite (gate_not_compiled _ w Hc) in Hg;
      injection Hg as <- <-; eexists; cbn [trace];
      (split; [reflexivity |]); (split; [repeat constructor | discriminate]).
Qed.

(** A gate whose helper keeps its contract returns with two units of
    fuel: the nested call made from [cryptsetup_enable_logging] finds
    the handle set. *)
Lemma gate_returns (fuel : nat) (w : world) :
  loader_contract ->
  exists r w1, dlopen_cryptsetup (S (S fuel)) w = Some (r, w1).
Proof.
  intros [Hloaded Hset].
  destruct HAVE_LIBCRYPTSETUP eqn:Hc;
    [| rewrite (gate_not_compiled _ w Hc); eauto].
  destruct (dlopen_many_sym_or_warn (cryptsetup_dl w) (loader w))
    as [[r0 d] l] eqn:Hh.
  destruct (Z.leb_spec r0 0) as [Hle | Hgt].
  - rewrite (gate_no_success _ w r0 d l Hc Hh Hle). eauto.
  - pose proof (Hset _ _ _ _ _ Hh Hgt) as Hd.
    destruct d as [h |]; [| congruence].
    cbn [dlopen_cryptsetup]. rewrite Hc. run. rewrite Hh.
    destruct (Z.leb_spec r0 0); [lia |]. cbn [cryptsetup_dl loader].
    rewrite Hloaded. cbn. eauto.
Qed.

End GateTrace.

(** C2 (as amended): [dlopen_cryptsetup] keeps no record of a failure.
    After a call that failed, a further call that returns has called the
    resolution helper once more, and when the helper's answer is again not
    above 0 that answer is what the call returns: the same error exactly
    when the helper reports the same error again.  Only in a build without
    libcryptsetup is the error fixed ([Unsupported]) and no resolution ever
    attempted. *)
Theorem dlopen_cryptsetup_failure_not_cached
        `{Collaborators} (fuel : nat) (w : world) (r : Z) (w1 : world) :
  dlopen_cryptsetup fuel w = Some (r, w1) -> r < 0 ->
  if HAVE_LIBCRYPTSETUP then
    resolutions w1 = S (resolutions w)
    /\ (forall r' w2, dlopen_cryptsetup fuel w1 = Some (r', w2) ->
                      (resolutions w1 < resolutions w2)%nat)
    /\ (forall r2 d2 l2,
           dlopen_many_sym_or_warn (cryptsetup_dl w1) (loader w1) = (r2, d2, l2) ->
           r2 <= 0 ->
           exists w2, dlopen_cryptsetup fuel w1 = Some (r2, w2)
                      /\ resolutions w2 = S (S (resolutions w)))
  else
    r = Unsupported
    /\ resolutions w1 = resolutions w
    /\ exists w2, dlopen_cryptsetup fuel w1 = Some (r, w2)
                  /\ resolutions w2 = resolutions w.
Proof.
  intros Hg Hr. pose proof (gate_failure_inv fuel w r w1 Hg Hr) as Hi.
  destruct fuel as [| fuel]; [discriminate |].
  destruct HAVE_LIBCRYPTSETUP eqn:Hc.
  - destruct Hi as (d & l & Hh & ->). split; [| split].
    + rewrite resolutions_app. cbn. lia.
    + intros r' w2 Hg2.
      destruct (gate_trace _ _ _ _ Hg2) as (evs & Ht & _ & Hfirst).
      destruct (Hfirst Hc) as (r0 & rest & ->).
      unfold resolutions. rewrite Ht, List.filter_app, length_app. cbn. lia.
    + intros r2 d2 l2 Hh2 Hr2.
      rewrite (gate_no_success fuel _ r2 d2 l2 Hc Hh2 Hr2).
      eexists. split; [reflexivity |].
      rewrite !resolutions_app. cbn. lia.
  - destruct Hi as (-> & ->). split; [reflexivity |]. split.
    + rewrite resolutions_app. cbn. lia.
    + rewrite (gate_not_compiled fuel _ Hc). eexists. split; [reflexivity |].
      rewrite !resolutions_app. cbn. lia.
Qed.

Lemma dlopen_cryptsetup_failure_not_cached_witness :
  let w := Reference.start true false false in
  exists w1,
    dlopen_cryptsetup 2 w = Some (- EOPNOTSUPP, w1)
    /\ - EOPNOTSUPP < 0
    /\ resolutions w1 = S (resolutions w)
    /\ (forall r' w2, dlopen_cryptsetup 2 w1 = Some (r', w2) ->
                      (resolutions w1 < resolutions w2)%nat)
    /\ (forall r2 d2 l2,
           dlopen_many_sym_or_warn (cryptsetup_dl w1) (loader w1) = (r2, d2, l2) ->
           r2 <= 0 ->
           exists w2, dlopen_cryptsetup 2 w1 = Some (r2, w2)
                      /\ resolutions w2 = S (S (resolutions w))).
Proof.
  intros w. eexists. split; [reflexivity |]. split; [reflexivity |].
  exact (dlopen_cryptsetup_failure_not_cached
           (H := Reference.collaborators true false)
           2 w (- EOPNOTSUPP) _ eq_refl eq_refl).
Defined.

(** C2 (as stated) fails: with the library absent, three calls in a row
    fail alike, and each of them calls the resolution helper, which asks
    the dynamic loader each time. *)
Lemma dlopen_cryptsetup_retries_after_failure :
  dlopen_cryptsetup 2 (Reference.failed 0) = Some (Unsupported, Reference.failed 1)
  /\ dlopen_cryptsetup 2 (Reference.failed 1) = Some (Unsupported, Reference.failed 2)
  /\ dlopen_cryptsetup 2 (Reference.failed 2) = Some (Unsupported, Reference.failed 3)
  /\ resolutions (Reference.failed 1) = 1%nat
  /\ resolutions (Reference.failed 2) = 2%nat
  /\ resolutions (Reference.failed 3) = 3%nat
  /\ Reference.dlopen_calls (loader (Reference.failed 3)) = 3%nat
  /\ ~ @failure_is_cached (Reference.collaborators true false).
Proof.
  assert (Hsecond : dlopen_cryptsetup 2 (Reference.failed 1)
                    = Some (Unsupported, Reference.failed 2)) by reflexivity.
  repeat (split; [reflexivity |]).
  intros Hc.
  destruct (Hc 2%nat (Reference.failed 0) Unsupported (Reference.failed 1)
               eq_refl eq_refl) as (w2 & Hcall & Hres).
  rewrite Hsecond in Hcall. injection Hcall as <-. discriminate Hres.
Qed.


(** ** cryptsetup_get_keyslot_from_token *)

Section KeyslotFacts.

Variable safe_atoi : string -> Z * Z.

(** On a "keyslots" array of one string, the result is decided by
    [safe_atoi] alone. *)
Lemma keyslot_of_singleton (v : sd_json_variant) (s : string) :
  sd_json_variant_by_key v "keyslots" = Some (JArray [JString s]) ->
  cryptsetup_get_keyslot_from_token safe_atoi v
  = let '(r, keyslot) := safe_atoi s in
    if r <? 0 then r else if keyslot <? 0 then - EINVAL else keyslot.
Proof.
  intros Hk. unfold cryptsetup_get_keyslot_from_token. rewrite Hk. reflexivity.
Qed.

Lemma keyslot_not_singleton (v w : sd_json_variant) :
  sd_json_variant_by_key v "keyslots" = Some w ->
  ~ (exists w0, w = JArray [w0]) ->
  cryptsetup_get_keyslot_from_token safe_atoi v = - EMEDIUMTYPE.
Proof.
  intros Hk Hn. unfold cryptsetup_get_keyslot_from_token. rewrite Hk.
  destruct w as [| b | z | s | elems | fields]; try reflexivity.
  destruct elems as [| w0 [| w1 elems]].
  - reflexivity.
  - exfalso. apply Hn. eauto.
  - cbn [sd_json_variant_is_array sd_json_variant_elements negb orb length].
    destruct (Z.eqb_spec (Z.of_nat (S (S (length elems)))) 1); [lia | reflexivity].
Qed.

Lemma keyslot_not_string (v w0 : sd_json_variant) :
  sd_json_variant_by_key v "keyslots" = Some (JArray [w0]) ->
  sd_json_variant_is_string w0 = false ->
  cryptsetup_get_keyslot_from_token safe_atoi v = - EMEDIUMTYPE.
Proof.
  intros Hk Hs. unfold cryptsetup_get_keyslot_from_token. rewrite Hk.
  cbn. rewrite Hs. reflexivity.
Qed.

(** The results the function can have: a keyslot, one of its own three
    errors, or an error of [safe_atoi]. *)
Lemma keyslot_results (v : sd_json_variant) :
  let result := cryptsetup_get_keyslot_from_token safe_atoi v in
  0 <= result
  \/ result = - ENOENT \/ result = - EMEDIUMTYPE \/ result = - EINVAL
  \/ exists s, result = fst (safe_atoi s) /\ result < 0.
Proof.
  unfold cryptsetup_get_keyslot_from_token.
  destruct (sd_json_variant_by_key v "keyslots") as [w |]; [| auto].
  destruct (negb (sd_json_variant_is_array w) || _); [auto |].
  destruct (sd_json_variant_by_index w 0) as [w0 |]; [| auto].
  destruct (negb (sd_json_variant_is_string w0)); [auto |].
  destruct (sd_json_variant_string w0) as [s |]; [| auto].
  destruct (safe_atoi s) as [r keyslot] eqn:Hs.
  destruct (Z.ltb_spec r 0).
  - do 4 right. exists s. rewrite Hs. auto.
  - destruct (Z.ltb_spec keyslot 0); auto.
Qed.

End KeyslotFacts.

(** C3: the errors of [cryptsetup_get_keyslot_from_token].  No "keyslots"
    member: NotFound.  A member that is not an array of exactly one
    element, or whose one element is not a string: TypeMismatch, so for
    the two-element array of "3" and "4".  A string that [safe_atoi]
    parses to a negative number: IndexInvalid.  A string that [safe_atoi]
    rejects: the error of [safe_atoi]. *)
Theorem keyslot_from_token_errors
        (safe_atoi : string -> Z * Z) (v : sd_json_variant) :
  let result := cryptsetup_get_keyslot_from_token safe_atoi v in
  (sd_json_variant_by_key v "keyslots" = None -> result = NotFound)
  /\ (forall w, sd_json_variant_by_key v "keyslots" = Some w ->
                ~ (exists w0, w = JArray [w0]) -> result = TypeMismatch)
  /\ (forall w0, sd_json_variant_by_key v "keyslots" = Some (JArray [w0]) ->
                 sd_json_variant_is_string w0 = false -> result = TypeMismatch)
  /\ (sd_json_variant_by_key v "keyslots"
      = Some (JArray [JString "3"; JString "4"]) -> result = TypeMismatch)
  /\ (forall s r n,
         sd_json_variant_by_key v "keyslots" = Some (JArray [JString s]) ->
         safe_atoi s = (r, n) -> 0 <= r -> n < 0 -> result = IndexInvalid)
  /\ (forall s r n,
         sd_json_variant_by_key v "keyslots" = Some (JArray [JString s]) ->
         safe_atoi s = (r, n) -> r < 0 -> result = r).
Proof.
  cbv zeta. repeat split.
  - intros Hk. unfold cryptsetup_get_keyslot_from_token. rewrite Hk. reflexivity.
  - intros w Hk Hn. exact (keyslot_not_singleton safe_atoi v w Hk Hn).
  - intros w0 Hk Hs. exact (keyslot_not_string safe_atoi v w0 Hk Hs).
  - intros Hk. apply (keyslot_not_singleton safe_atoi v _ Hk).
    intros (w0 & [=]).
  - intros s r n Hk Hs Hr Hn. rewrite (keyslot_of_singleton safe_atoi v s Hk), Hs.
    destruct (Z.ltb_spec r 0); [lia |].
    destruct (Z.ltb_spec n 0); [reflexivity | lia].
  - intros s r n Hk Hs Hr. rewrite (keyslot_of_singleton safe_atoi v s Hk), Hs.
    destruct (Z.ltb_spec r 0); [reflexivity | lia].
Qed.

Lemma keyslot_from_token_errors_witness :
  cryptsetup_get_keyslot_from_token
    Reference.safe_atoi (JObject [("type", JString "systemd-tpm2")])
  = NotFound
  /\ cryptsetup_get_keyslot_from_token
       Reference.safe_atoi (JObject [("keyslots", JString "3")])
     = TypeMismatch
  /\ cryptsetup_get_keyslot_from_token
       Reference.safe_atoi (JObject [("keyslots", JArray [JInteger 3])])
     = TypeMismatch
  /\ cryptsetup_get_keyslot_from_token
       Reference.safe_atoi (JObject [("keyslots", JArray [JString "3"; JString "4"])])
     = TypeMismatch
  /\ cryptsetup_get_keyslot_from_token
       Reference.safe_atoi (JObject [("keyslots", JArray [JString "-1"])])
     = IndexInvalid
  /\ cryptsetup_get_keyslot_from_token
       Reference.safe_atoi (JObject [("keyslots", JArray [JString "1x"])])
     = - EINVAL.
Proof.
  split; [| split; [| split; [| split; [| split]]]].
  - apply (keyslot_from_token_errors Reference.safe_atoi). reflexivity.
  - apply (proj1 (proj2 (keyslot_from_token_errors Reference.safe_atoi _))
             (JString "3")); [reflexivity |].
    intros (w0 & Hw). discriminate Hw.
  - apply (proj1 (proj2 (proj2 (keyslot_from_token_errors Reference.safe_atoi _)))
             (JInteger 3)); reflexivity.
  - apply (proj1 (proj2 (proj2 (proj2
             (keyslot_from_token_errors Reference.safe_atoi _))))).
    reflexivity.
  - apply (proj1 (proj2 (proj2 (proj2 (proj2
             (keyslot_from_token_errors Reference.safe_atoi _)))))
             "-1" 0 (-1)); [reflexivity | reflexivity | lia | lia].
  - apply (proj2 (proj2 (proj2 (proj2 (proj2
             (keyslot_from_token_errors Reference.safe_atoi _)))))
             "1x" (- EINVAL) 0); [reflexivity | reflexivity | reflexivity].
Defined.

(** C4: on a "keyslots" array of exactly one string that [safe_atoi]
    parses to a number [n] that is not negative, the result is [n]. *)
Theorem keyslot_from_token_value
        (safe_atoi : string -> Z * Z) (v : sd_json_variant)
        (s : string) (r n : Z) :
  sd_json_variant_by_key v "keyslots" = Some (JArray [JString s]) ->
  safe_atoi s = (r, n) -> 0 <= r -> 0 <= n ->
  cryptsetup_get_keyslot_from_token safe_atoi v = n.
Proof.
  intros Hk Hs Hr Hn. rewrite (keyslot_of_singleton safe_atoi v s Hk), Hs.
  destruct (Z.ltb_spec r 0); [lia |].
  destruct (Z.ltb_spec n 0); [lia | reflexivity].
Qed.

Lemma keyslot_from_token_value_witness :
  cryptsetup_get_keyslot_from_token
    Reference.safe_atoi
    (JObject [("type", JString "systemd-tpm2"); ("keyslots", JArray [JString "3"])])
  = 3.
Proof.
  apply (keyslot_from_token_value Reference.safe_atoi _ "3" 0 3);
    [reflexivity | reflexivity | lia | lia].
Defined.


(** ** The operations behind the gate *)

Section Runs.

Context `{Collaborators}.

Lemma new_events_app (w : world) d l b (evs : list event) :
  new_events w (mk_world d l b (trace w ++ evs)) = evs.
Proof. unfold new_events. cbn [trace]. apply drop_app_length. Qed.

Lemma new_events_refl (w : world) : new_events w w = [].
Proof. unfold new_events. apply drop_all. Qed.

(** [cryptsetup_set_minimal_pbkdf], given what its call of the gate did. *)
Lemma set_minimal_pbkdf_run (fuel : nat) (cd : option crypt_device)
      (w : world) (r0 : Z) (w1 : world) :
  dlopen_cryptsetup fuel w = Some (r0, w1) ->
  cryptsetup_set_minimal_pbkdf fuel cd w
  = if r0 <? 0 then Some (r0, w1)
    else
      let '(r, b) := sym_crypt_set_pbkdf_type cd minimal_pbkdf (backend w1) in
      Some (if r <? 0 then r else 0,
            after_call w1 b [EvSetPbkdfType cd minimal_pbkdf]).
Proof.
  intros Hg. unfold cryptsetup_set_minimal_pbkdf, after_call. run. rewrite Hg.
  destruct (r0 <? 0); [reflexivity |].
  destruct (sym_crypt_set_pbkdf_type cd minimal_pbkdf (backend w1)) as [r b].
  destruct (r <? 0); reflexivity.
Qed.

(** [cryptsetup_get_token_as_json], given what its call of the gate did. *)
Lemma get_token_run (fuel : nat) (cd : crypt_device) (idx : Z)
      (verify_type : option string) (want_ret : bool)
      (w : world) (r0 : Z) (w1 : world) :
  dlopen_cryptsetup fuel w = Some (r0, w1) ->
  cryptsetup_get_token_as_json fuel cd idx verify_type want_ret w
  = if r0 <? 0 then Some ((r0, None), w1)
    else
      let w2 := after_call w1 (backend w1) [EvTokenJsonGet (Some cd) idx] in
      let '(r, text) := sym_crypt_token_json_get (Some cd) idx (backend w1) in
      if r <? 0 then Some ((r, None), w2)
      else
        let '(rp, v) := sd_json_parse text 0 in
        if rp <? 0 then Some ((rp, None), w2)
        else
          match verify_token_type v verify_type with
          | Some e => Some ((e, None), w2)
          | None => Some ((0, if want_ret then Some v else None), w2)
          end.
Proof.
  intros Hg. unfold cryptsetup_get_token_as_json, after_call. run. rewrite Hg.
  destruct (r0 <? 0); [reflexivity |].
  destruct (sym_crypt_token_json_get (Some cd) idx (backend w1)) as [r text].
  destruct (r <? 0); [reflexivity |].
  destruct (sd_json_parse text 0) as [rp v].
  destruct (rp <? 0); [reflexivity |].
  destruct (verify_token_type v verify_type); reflexivity.
Qed.

(** [cryptsetup_add_token_json], given what its call of the gate did. *)
Lemma add_token_run (fuel : nat) (cd : option crypt_device)
      (v : sd_json_variant) (w : world) (r0 : Z) (w1 : world) :
  dlopen_cryptsetup fuel w = Some (r0, w1) ->
  cryptsetup_add_token_json fuel cd v w
  = if r0 <? 0 then Some (r0, w1)
    else
      let '(rf, text) := sd_json_variant_format v 0 in
      if rf <? 0 then
        Some (log_errno_result rf,
              after_call w1 (backend w1)
                [EvLog LOG_DEBUG "Failed to format token data for LUKS: %m"])
      else
        let '(rs, b) :=
          sym_crypt_token_json_set cd CRYPT_ANY_TOKEN text (backend w1) in
        Some (if rs <? 0 then log_errno_result rs else 0,
              after_call w1 b
                ([EvLog LOG_DEBUG ("Adding token text <" +:+ text +:+ ">");
                  EvTokenJsonSet cd CRYPT_ANY_TOKEN text]
                 ++ if rs <? 0
                    then [EvLog LOG_DEBUG "Failed to write token data to LUKS: %m"]
                    else [])).
Proof.
  intros Hg. unfold cryptsetup_add_token_json, after_call. run. rewrite Hg.
  destruct (r0 <? 0); [reflexivity |].
  destruct (sd_json_variant_format v 0) as [rf text].
  destruct (rf <? 0); [reflexivity |]. cbn [backend cryptsetup_dl loader trace].
  destruct (sym_crypt_token_json_set cd CRYPT_ANY_TOKEN text (backend w1))
    as [rs b].
  destruct (rs <? 0); cbn [backend cryptsetup_dl loader trace];
    rewrite <- !app_assoc; reflexivity.
Qed.

(** The operations return whenever their call of the gate does. *)
Lemma operations_return (fuel : nat) (w : world) (r0 : Z) (w1 : world) :
  dlopen_cryptsetup fuel w = Some (r0, w1) ->
  (forall cd, is_Some (cryptsetup_enable_logging fuel cd w))
  /\ (forall cd, is_Some (cryptsetup_set_minimal_pbkdf fuel cd w))
  /\ (forall cd idx verify_type want_ret,
         is_Some (cryptsetup_get_token_as_json fuel cd idx verify_type want_ret w))
  /\ (forall cd v, is_Some (cryptsetup_add_token_json fuel cd v w)).
Proof.
  intros Hg. repeat split.
  - intros cd. run. rewrite Hg. destruct (r0 <? 0); eauto.
  - intros cd. rewrite (set_minimal_pbkdf_run _ _ _ _ _ Hg).
    destruct (r0 <? 0); [eauto |].
    destruct (sym_crypt_set_pbkdf_type _ _ _). eauto.
  - intros cd idx verify_type want_ret. rewrite (get_token_run _ _ _ _ _ _ _ _ Hg).
    destruct (r0 <? 0); [eauto |]. cbv zeta.
    destruct (sym_crypt_token_json_get _ _ _) as [r text].
    destruct (r <? 0); [eauto |].
    destruct (sd_json_parse text 0) as [rp v].
    destruct (rp <? 0); [eauto |].
    destruct (verify_token_type v verify_type); eauto.
  - intros cd v. rewrite (add_token_run _ _ _ _ _ _ Hg).
    destruct (r0 <? 0); [eauto |].
    destruct (sd_json_variant_format v 0) as [rf text].
    destruct (rf <? 0); [eauto |].
    destruct (sym_crypt_token_json_set _ _ _ _). eauto.
Qed.

(** With a helper that keeps its contract, two units of fuel are enough
    for every operation to return. *)
Lemma operations_return_under_contract (fuel : nat) (w : world) :
  loader_contract ->
  is_Some (dlopen_cryptsetup (S (S fuel)) w)
  /\ (forall cd, is_Some (cryptsetup_enable_logging (S (S fuel)) cd w))
  /\ (forall cd, is_Some (cryptsetup_set_minimal_pbkdf (S (S fuel)) cd w))
  /\ (forall cd idx verify_type want_ret,
         is_Some (cryptsetup_get_token_as_json
                    (S (S fuel)) cd idx verify_type want_ret w))
  /\ (forall cd v, is_Some (cryptsetup_add_token_json (S (S fuel)) cd v w)).
Proof.
  intros Hc. destruct (gate_returns fuel w Hc) as (r0 & w1 & Hg).
  split; [rewrite Hg; eauto |]. exact (operations_return _ _ _ _ Hg).
Qed.

End Runs.


(** ** cryptsetup_get_token_as_json *)

(** C1 (as amended): once the gate has let the call through, an index
    outside [0, token_max) gives IndexInvalid and an index without a
    token gives NotFound, whether or not a type to verify was given.  A
    stored token without a "type" member gives IndexInvalid only when a
    type to verify was given; without one the call succeeds and returns
    the parsed value. *)
Theorem get_token_errors
        `{Collaborators} (token_max : Z)
        (stored : backend_state -> Z -> option string)
        (fuel : nat) (w : world) (r0 : Z) (w1 : world)
        (cd : crypt_device) (idx : Z)
        (verify_type : option string) (want_ret : bool) :
  token_contract token_max stored ->
  dlopen_cryptsetup fuel w = Some (r0, w1) -> 0 <= r0 ->
  let result :=
    fst <$> cryptsetup_get_token_as_json fuel cd idx verify_type want_ret w in
  (~ (0 <= idx < token_max) -> result = Some (IndexInvalid, None))
  /\ (0 <= idx < token_max -> stored (backend w1) idx = None ->
      result = Some (NotFound, None))
  /\ (forall text rp v,
         0 <= idx < token_max -> stored (backend w1) idx = Some text ->
         sd_json_parse text 0 = (rp, v) -> 0 <= rp ->
         sd_json_variant_by_key v "type" = None ->
         result = match verify_type with
                  | Some _ => Some (IndexInvalid, None)
                  | None => Some (0, if want_ret then Some v else None)
                  end).
Proof.
  intros Hb Hg Hr0. cbv zeta.
  rewrite (get_token_run _ _ _ _ _ _ _ _ Hg).
  destruct (Z.ltb_spec r0 0); [lia |]. cbv zeta.
  destruct (sym_crypt_token_json_get (Some cd) idx (backend w1))
    as [r text0] eqn:Hget.
  repeat split.
  - intros Hidx. pose proof (get_out_of_range _ _ Hb (Some cd) idx (backend w1) Hidx) as He.
    rewrite Hget in He. cbn [fst] in He. subst r. reflexivity.
  - intros Hidx Hs. pose proof (get_absent _ _ Hb (Some cd) idx (backend w1) Hidx Hs) as He.
    rewrite Hget in He. cbn [fst] in He. subst r. reflexivity.
  - intros text rp v Hidx Hs Hp Hrp Ht.
    destruct (get_present _ _ Hb (Some cd) idx (backend w1) text Hidx Hs) as [Hr Htext].
    rewrite Hget in Hr, Htext. cbn [fst snd] in Hr, Htext. subst text0.
    destruct (Z.ltb_spec r 0); [lia |]. rewrite Hp.
    destruct (Z.ltb_spec rp 0); [lia |].
    unfold verify_token_type. rewrite Ht.
    destruct verify_type; reflexivity.
Qed.

(** C6: with a type to verify, a stored token whose "type" member is not
    that string, in particular one whose "type" is no string at all,
    gives TypeMismatch; one whose "type" is that string gives success and
    the parsed value. *)
Theorem get_token_verifies_type
        `{Collaborators} (fuel : nat) (w : world) (r0 : Z) (w1 : world)
        (cd : crypt_device) (idx : Z) (expected_type : string) (want_ret : bool)
        (r : Z) (text : string) (rp : Z) (v : sd_json_variant) :
  dlopen_cryptsetup fuel w = Some (r0, w1) -> 0 <= r0 ->
  sym_crypt_token_json_get (Some cd) idx (backend w1) = (r, text) -> 0 <= r ->
  sd_json_parse text 0 = (rp, v) -> 0 <= rp ->
  let result :=
    fst <$> cryptsetup_get_token_as_json fuel cd idx (Some expected_type) want_ret w in
  (forall t, sd_json_variant_by_key v "type" = Some t ->
             sd_json_variant_string t <> Some expected_type ->
             result = Some (TypeMismatch, None))
  /\ (forall t, sd_json_variant_by_key v "type" = Some t ->
                sd_json_variant_is_string t = false ->
                result = Some (TypeMismatch, None))
  /\ (sd_json_variant_by_key v "type" = Some (JString expected_type) ->
      result = Some (0, if want_ret then Some v else None)).
Proof.
  intros Hg Hr0 Hget Hr Hp Hrp. cbv zeta.
  rewrite (get_token_run _ _ _ _ _ _ _ _ Hg).
  destruct (Z.ltb_spec r0 0); [lia |]. cbv zeta. rewrite Hget.
  destruct (Z.ltb_spec r 0); [lia |]. rewrite Hp.
  destruct (Z.ltb_spec rp 0); [lia |].
  unfold verify_token_type.
  assert (Hneq : forall t, sd_json_variant_string t <> Some expected_type ->
                           streq_ptr (sd_json_variant_string t) (Some expected_type) = false).
  { intros t Ht. destruct (sd_json_variant_string t) as [s |]; [| reflexivity].
    cbn. apply String.eqb_neq. congruence. }
  repeat split.
  - intros t Ht Hne. rewrite Ht, (Hneq t Hne). reflexivity.
  - intros t Ht Hs. rewrite Ht, (Hneq t); [reflexivity |].
    destruct t; try discriminate; cbn; congruence.
  - intros Ht. rewrite Ht. cbn. rewrite String.eqb_refl. reflexivity.
Qed.


(** ** The reference instance keeps the contracts *)

Module ReferenceFacts.

Import Reference.

Lemma safe_atoi_codes (s : string) :
  fst (safe_atoi s) = 0 \/ fst (safe_atoi s) = - EINVAL
  \/ fst (safe_atoi s) = - ERANGE.
Proof.
  unfold safe_atoi.
  set (p := match s with
            | String "-"%char s' => (true, s')
            | _ => (false, s)
            end).
  destruct p as [neg body].
  destruct body as [| c body]; [auto |].
  destruct (digits_value 0 (String c body)) as [n |]; [| auto].
  destruct ((_ <? _) || (_ <? _)); auto.
Qed.

Lemma loader_contract_holds (have debug : bool) :
  @loader_contract (collaborators have debug).
Proof.
  split.
  - reflexivity.
  - intros d l r d' l'. cbn. unfold load_symbols.
    destruct d; [intros [= <- <- <-] _; discriminate |].
    destruct (lib_installed l); intros [= <- <- <-] Hr;
      [discriminate | exfalso; unfold EOPNOTSUPP in Hr; lia].
Qed.

Lemma free_token_nonneg (b : backend) (i : Z) : free_token b = Some i -> 0 <= i.
Proof.
  unfold free_token. intros Hf.
  destruct (list_find _ _) as [[k x] |] eqn:Hfind; [| discriminate].
  injection Hf as ->. apply list_find_Some in Hfind as (Hl & _).
  apply lookup_seqZ in Hl. lia.
Qed.

Lemma token_contract_holds (have debug : bool) :
  @token_contract (collaborators have debug) token_max
                  (fun b idx => tokens b !! idx).
Proof.
  split; cbn; unfold crypt_token_json_get, crypt_token_json_set.
  - intros _ idx b Hidx.
    destruct (Z.ltb_spec idx 0); [reflexivity |].
    destruct (Z.leb_spec token_max idx); [reflexivity | lia].
  - intros _ idx b Hidx Hs.
    destruct (Z.ltb_spec idx 0); [lia |].
    destruct (Z.leb_spec token_max idx); [lia |]. cbn. rewrite Hs. reflexivity.
  - intros _ idx b text Hidx Hs.
    destruct (Z.ltb_spec idx 0); [lia |].
    destruct (Z.leb_spec token_max idx); [lia |]. cbn. rewrite Hs. cbn.
    split; [lia | reflexivity].
  - intros _ token text b r b'.
    destruct (token =? CRYPT_ANY_TOKEN).
    + destruct (free_token b) as [i |] eqn:Hf.
      * intros [= <- <-] Hneg. apply free_token_nonneg in Hf. lia.
      * intros [= <- <-] _. reflexivity.
    + destruct (Z.ltb_spec token 0); [intros [= <- <-] _; reflexivity |].
      destruct (Z.leb_spec token_max token); cbn; intros [= <- <-] Hneg;
        [reflexivity | lia].
Qed.

End ReferenceFacts.

Lemma get_token_errors_witness :
  let w := Reference.start true false true in
  fst <$> cryptsetup_get_token_as_json 2 0%N 40 (Some "systemd-tpm2") true w
  = Some (IndexInvalid, None)
  /\ fst <$> cryptsetup_get_token_as_json 2 0%N 3 None true w
     = Some (NotFound, None)
  /\ fst <$> cryptsetup_get_token_as_json 2 0%N 2 (Some "systemd-tpm2") true w
     = Some (IndexInvalid, None)
  /\ fst <$> cryptsetup_get_token_as_json 2 0%N 2 None true w
     = Some (0, Some Reference.token_typeless).
Proof.
  intros w.
  pose (thm := fun idx verify_type =>
          get_token_errors (H := Reference.collaborators true false)
            Reference.token_max (fun b i => Reference.tokens b !! i)
            2 w 1 Reference.loaded 0%N idx verify_type true
            (ReferenceFacts.token_contract_holds true false)
            eq_refl ltac:(lia)).
  split; [| split; [| split]].
  - apply (proj1 (thm 40 (Some "systemd-tpm2"))). unfold Reference.token_max. lia.
  - apply (proj1 (proj2 (thm 3 None))); [unfold Reference.token_max; lia | reflexivity].
  - apply (proj2 (proj2 (thm 2 (Some "systemd-tpm2")))
             (Reference.format Reference.token_typeless) 0 Reference.token_typeless);
      [unfold Reference.token_max; lia | reflexivity | reflexivity | lia | reflexivity].
  - apply (proj2 (proj2 (thm 2 None))
             (Reference.format Reference.token_typeless) 0 Reference.token_typeless);
      [unfold Reference.token_max; lia | reflexivity | reflexivity | lia | reflexivity].
Defined.

(** C1 (as stated) fails: the token at index 2 of the reference header has
    no "type" member, and without a type to verify it is returned. *)
Lemma get_token_accepts_typeless_token :
  let w := Reference.start true false true in
  sd_json_variant_by_key Reference.token_typeless "type" = None
  /\ fst <$> cryptsetup_get_token_as_json 2 0%N 2 None true w
     = Some (0, Some Reference.token_typeless)
  /\ fst <$> cryptsetup_get_token_as_json 2 0%N 2 None true w
     <> Some (IndexInvalid, None)
  /\ ~ @typeless_token_always_refused (Reference.collaborators true false).
Proof.
  intros w. split; [reflexivity |]. split; [reflexivity |].
  split; [discriminate |].
  intros Hc.
  destruct (Hc 2%nat w 0%N 2 None true 2
               (Reference.format Reference.token_typeless)
               0 Reference.token_typeless 1 Reference.loaded
               eq_refl ltac:(lia) eq_refl ltac:(lia) eq_refl ltac:(lia) eq_refl)
    as (w' & Hcall).
  assert (Hrun : fst <$> cryptsetup_get_token_as_json 2 0%N 2 None true w
                 = Some (0, Some Reference.token_typeless)) by reflexivity.
  rewrite Hcall in Hrun. discriminate Hrun.
Qed.

Lemma get_token_verifies_type_witness :
  let w := Reference.start true false true in
  fst <$> cryptsetup_get_token_as_json 2 0%N 0 (Some "systemd-tpm2") true w
  = Some (TypeMismatch, None)
  /\ fst <$> cryptsetup_get_token_as_json 2 0%N 4 (Some "7") true w
     = Some (TypeMismatch, None)
  /\ fst <$> cryptsetup_get_token_as_json 2 0%N 1 (Some "systemd-tpm2") true w
     = Some (0, Some Reference.token_tpm2).
Proof.
  intros w. split; [| split].
  - apply (proj1 (get_token_verifies_type
                    (H := Reference.collaborators true false)
                    2 w 1 Reference.loaded 0%N 0 "systemd-tpm2" true
                    0 (Reference.format Reference.token_fido2)
                    0 Reference.token_fido2
                    eq_refl ltac:(lia) eq_refl ltac:(lia) eq_refl ltac:(lia))
                 (JString "systemd-fido2")); [reflexivity | discriminate].
  - apply (proj1 (proj2 (get_token_verifies_type
                    (H := Reference.collaborators true false)
                    2 w 1 Reference.loaded 0%N 4 "7" true
                    4 (Reference.format Reference.token_odd_type)
                    0 Reference.token_odd_type
                    eq_refl ltac:(lia) eq_refl ltac:(lia) eq_refl ltac:(lia)))
                 (JInteger 7)); reflexivity.
  - apply (proj2 (proj2 (get_token_verifies_type
                    (H := Reference.collaborators true false)
                    2 w 1 Reference.loaded 0%N 1 "systemd-tpm2" true
                    1 (Reference.format Reference.token_tpm2)
                    0 Reference.token_tpm2
                    eq_refl ltac:(lia) eq_refl ltac:(lia) eq_refl ltac:(lia)))).
    reflexivity.
Defined.

(** ** Events of an operation that first calls the gate *)

Section BehindTheGate.

Context `{Collaborators}.

Lemma new_events_after_gate (fuel : nat) (w : world) (r0 : Z) (w1 : world)
      (b : backend_state) (evs : list event) :
  dlopen_cryptsetup fuel w = Some (r0, w1) ->
  exists gate_evs,
    Forall (fun e => is_gate_event e = true) gate_evs
    /\ new_events w w1 = gate_evs
    /\ new_events w (after_call w1 b evs) = gate_evs ++ evs.
Proof.
  intros Hg. destruct (gate_trace _ _ _ _ Hg) as (gate_evs & Ht & Hall & _).
  exists gate_evs. split; [exact Hall |]. unfold new_events, after_call.
  cbn [trace]. rewrite Ht, <- app_assoc, !drop_app_length. auto.
Qed.

End BehindTheGate.

(** ** cryptsetup_set_minimal_pbkdf *)

(** C5: the policy is fixed: hash "sha512", type PBKDF2, 1000 iterations,
    flag CRYPT_PBKDF_NO_BENCHMARK set.  The operation returns, and every
    PBKDF type it hands to libcryptsetup is that policy, for the device it
    was called with: exactly one such call when the gate lets it through,
    none when it does not. *)
Theorem set_minimal_pbkdf_policy
        `{Collaborators} (fuel : nat) (cd : option crypt_device)
        (w : world) (r0 : Z) (w1 : world) :
  dlopen_cryptsetup fuel w = Some (r0, w1) ->
  (pbkdf_hash minimal_pbkdf = "sha512"
   /\ pbkdf_type minimal_pbkdf = CRYPT_KDF_PBKDF2
   /\ pbkdf_iterations minimal_pbkdf = 1000
   /\ Z.land (pbkdf_flags minimal_pbkdf) CRYPT_PBKDF_NO_BENCHMARK
      = CRYPT_PBKDF_NO_BENCHMARK
   /\ Z.testbit (pbkdf_flags minimal_pbkdf) 1 = true)
  /\ exists r w',
      cryptsetup_set_minimal_pbkdf fuel cd w = Some (r, w')
      /\ (forall cd' p, In (EvSetPbkdfType cd' p) (new_events w w') ->
                        cd' = cd /\ p = minimal_pbkdf)
      /\ (r0 < 0 -> r = r0 /\ w' = w1 /\ backend w' = backend w)
      /\ (0 <= r0 ->
          new_events w1 w' = [EvSetPbkdfType cd minimal_pbkdf]
          /\ backend w'
             = snd (sym_crypt_set_pbkdf_type cd minimal_pbkdf (backend w1))
          /\ r = Z.min 0 (fst (sym_crypt_set_pbkdf_type cd minimal_pbkdf (backend w1)))).
Proof.
  intros Hg. split; [repeat split |].
  rewrite (set_minimal_pbkdf_run _ _ _ _ _ Hg).
  destruct (Z.ltb_spec r0 0) as [Hneg | Hpos].
  - exists r0, w1. split; [reflexivity |].
    destruct (gate_failure_effect _ _ _ _ Hg Hneg) as (Hb & e & Ht & _ & _ & Hne).
    split; [| split; [auto | lia]].
    intros cd' p Hin. unfold new_events in Hin.
    rewrite Ht, drop_app_length in Hin.
    destruct Hin as [-> | []]. destruct (Hne cd' p eq_refl).
  - destruct (sym_crypt_set_pbkdf_type cd minimal_pbkdf (backend w1))
      as [r1 b] eqn:Hset.
    do 2 eexists. split; [reflexivity |].
    destruct (new_events_after_gate _ _ _ _ b [EvSetPbkdfType cd minimal_pbkdf] Hg)
      as (gate_evs & Hall & _ & Hnew).
    split; [| split; [lia |]].
    + intros cd' p Hin. rewrite Hnew in Hin. apply in_app_or in Hin as [Hin | Hin].
      * rewrite Forall_forall in Hall.
        apply list_elem_of_In, Hall in Hin. discriminate Hin.
      * destruct Hin as [[= <- <-] | []]. auto.
    + intros _. cbn [fst snd].
      split; [apply new_events_app |]. split; [reflexivity |].
      destruct (Z.ltb_spec r1 0); lia.
Qed.

Lemma set_minimal_pbkdf_policy_witness :
  exists r w',
    cryptsetup_set_minimal_pbkdf 2 (Some 0%N) (Reference.start true false true)
    = Some (r, w')
    /\ (forall cd' p, In (EvSetPbkdfType cd' p)
                         (new_events (Reference.start true false true) w') ->
                      cd' = Some 0%N /\ p = minimal_pbkdf)
    /\ new_events Reference.loaded w' = [EvSetPbkdfType (Some 0%N) minimal_pbkdf]
    /\ Reference.pbkdf (backend w') = Some minimal_pbkdf
    /\ r = 0.
Proof.
  destruct (proj2 (set_minimal_pbkdf_policy
                     (H := Reference.collaborators true false)
                     2 (Some 0%N) (Reference.start true false true)
                     1 Reference.loaded eq_refl))
    as (r & w' & Hrun & Honly & _ & Hopen).
  destruct (Hopen ltac:(lia)) as (Hnew & Hb & Hr).
  exists r, w'. split; [exact Hrun |]. split; [exact Honly |].
  split; [exact Hnew |]. split; [| exact Hr].
  exact (f_equal Reference.pbkdf Hb).
Defined.

(** ** cryptsetup_add_token_json *)

(** C7: behind the gate, the value is serialised and the text written
    with CRYPT_ANY_TOKEN.  When serialising fails, its error is returned,
    the failure is logged as one of formatting, and no write is issued.
    When libcryptsetup rejects the write, its error is returned, the
    failure is logged as one of writing, that one write is the only one
    issued, and the token table is as before.  Otherwise the result is 0
    after that one write. *)
Theorem add_token_json_failures
        `{Collaborators} (fuel : nat) (cd : option crypt_device)
        (v : sd_json_variant) (w : world) (r0 : Z) (w1 : world)
        (rf : Z) (text : string) :
  dlopen_cryptsetup fuel w = Some (r0, w1) -> 0 <= r0 ->
  sd_json_variant_format v 0 = (rf, text) ->
  (- 2 ^ 30 < rf < 0 ->
   exists w',
     cryptsetup_add_token_json fuel cd v w = Some (rf, w')
     /\ backend w' = backend w1
     /\ new_events w1 w'
        = [EvLog LOG_DEBUG "Failed to format token data for LUKS: %m"]
     /\ Forall (fun e => is_token_set e = false) (new_events w w'))
  /\ (0 <= rf ->
      forall rs b,
        sym_crypt_token_json_set cd CRYPT_ANY_TOKEN text (backend w1) = (rs, b) ->
        (- 2 ^ 30 < rs < 0 ->
         exists w',
           cryptsetup_add_token_json fuel cd v w = Some (rs, w')
           /\ backend w' = b
           /\ new_events w1 w'
              = [EvLog LOG_DEBUG ("Adding token text <" +:+ text +:+ ">");
                 EvTokenJsonSet cd CRYPT_ANY_TOKEN text;
                 EvLog LOG_DEBUG "Failed to write token data to LUKS: %m"]
           /\ (forall token_max stored,
                  token_contract token_max stored ->
                  stored (backend w') = stored (backend w1)))
        /\ (0 <= rs ->
            exists w',
              cryptsetup_add_token_json fuel cd v w = Some (0, w')
              /\ backend w' = b
              /\ new_events w1 w'
                 = [EvLog LOG_DEBUG ("Adding token text <" +:+ text +:+ ">");
                    EvTokenJsonSet cd CRYPT_ANY_TOKEN text])).
Proof.
  intros Hg Hr0 Hf. rewrite (add_token_run _ _ _ _ _ _ Hg), Hf.
  destruct (Z.ltb_spec r0 0); [lia |]. split.
  - intros Hrf. destruct (Z.ltb_spec rf 0); [| lia].
    rewrite (log_errno_result_errno rf Hrf). eexists. split; [reflexivity |].
    split; [reflexivity |]. split; [apply new_events_app |].
    destruct (new_events_after_gate
                _ _ _ _ (backend w1)
                [EvLog LOG_DEBUG "Failed to format token data for LUKS: %m"] Hg)
      as (gate_evs & Hall & _ & ->).
    apply Forall_app. split; [| repeat constructor].
    eapply Forall_impl; [exact Hall |]. intros [] He; cbn in *; congruence.
  - intros Hrf rs b Hset. destruct (Z.ltb_spec rf 0); [lia |]. rewrite Hset.
    split.
    + intros Hrs. destruct (Z.ltb_spec rs 0); [| lia].
      rewrite (log_errno_result_errno rs Hrs). eexists. split; [reflexivity |].
      split; [reflexivity |]. split; [apply new_events_app |].
      intros token_max stored Hc. cbn [after_call backend].
      exact (set_rejected _ _ Hc _ _ _ _ _ _ Hset ltac:(lia)).
    + intros Hrs. destruct (Z.ltb_spec rs 0); [lia |].
      eexists. split; [reflexivity |]. split; [reflexivity |].
      apply new_events_app.
Qed.

Lemma add_token_json_failures_witness :
  (exists w',
      cryptsetup_add_token_json
        2 (Some 0%N) Reference.token_tpm2
        (Reference.start_with true false true Reference.json_format_oom Reference.header)
      = Some (- ENOMEM, w')
      /\ backend w'
         = backend (Reference.loaded_with Reference.json_format_oom Reference.header)
      /\ new_events
           (Reference.loaded_with Reference.json_format_oom Reference.header) w'
         = [EvLog LOG_DEBUG "Failed to format token data for LUKS: %m"])
  /\ (exists w',
         cryptsetup_add_token_json
           2 (Some 0%N) Reference.token_tpm2
           (Reference.start_with true false true Reference.json_format Reference.full_header)
         = Some (- EINVAL, w')
         /\ Reference.tokens (backend w') = Reference.tokens Reference.full_header)
  /\ (exists w',
         cryptsetup_add_token_json
           2 (Some 0%N) Reference.token_tpm2 (Reference.start true false true)
         = Some (0, w')
         /\ Reference.tokens (backend w') !! 3
            = Some (Reference.format Reference.token_tpm2)).
Proof.
  split; [| split].
  - destruct (proj1 (add_token_json_failures
                       (H := Reference.collaborators_with true false Reference.json_format_oom)
                       2 (Some 0%N) Reference.token_tpm2
                       (Reference.start_with true false true
                                             Reference.json_format_oom Reference.header)
                       1 (Reference.loaded_with Reference.json_format_oom Reference.header)
                       (- ENOMEM) EmptyString
                       eq_refl ltac:(lia) eq_refl)
                    ltac:(unfold ENOMEM; lia))
      as (w' & Hrun & Hb & Hnew & _).
    exists w'. auto.
  - destruct (proj1 (proj2 (add_token_json_failures
                       (H := Reference.collaborators true false)
                       2 (Some 0%N) Reference.token_tpm2
                       (Reference.start_with true false true
                                             Reference.json_format Reference.full_header)
                       1 (Reference.loaded_with Reference.json_format Reference.full_header)
                       _ _ eq_refl ltac:(lia) eq_refl)
                    ltac:(vm_compute; discriminate)
                    (- EINVAL) _ eq_refl)
                    ltac:(unfold EINVAL; lia))
      as (w' & Hrun & Hb & _ & _).
    exists w'. split; [exact Hrun |]. exact (f_equal Reference.tokens Hb).
  - destruct (proj2 (proj2 (add_token_json_failures
                       (H := Reference.collaborators true false)
                       2 (Some 0%N) Reference.token_tpm2
                       (Reference.start true false true)
                       1 Reference.loaded
                       _ _ eq_refl ltac:(lia) eq_refl)
                    ltac:(vm_compute; discriminate)
                    3 _ eq_refl)
                    ltac:(lia))
      as (w' & Hrun & Hb & _).
    exists w'. split; [exact Hrun |].
    exact (f_equal (fun b => Reference.tokens b !! 3) Hb).
Defined.

(** ** cryptsetup_log_glue *)

(** C8: the logging bridge logs the message once, at the host level of
    its severity: normal at notice, error at error, verbose at info, debug
    at debug.  For any other severity it first logs, at error level, a
    message that names the value, then the message itself at error level.
    Nothing else changes. *)
Theorem log_glue_levels
        `{Collaborators} (level : Z) (msg : string) (w : world) :
  exists evs,
    cryptsetup_log_glue level msg w = Some (tt, after_call w (backend w) evs)
    /\ (level = CRYPT_LOG_NORMAL -> evs = [EvLog LOG_NOTICE msg])
    /\ (level = CRYPT_LOG_ERROR -> evs = [EvLog LOG_ERR msg])
    /\ (level = CRYPT_LOG_VERBOSE -> evs = [EvLog LOG_INFO msg])
    /\ (level = CRYPT_LOG_DEBUG -> evs = [EvLog LOG_DEBUG msg])
    /\ (level <> CRYPT_LOG_NORMAL -> level <> CRYPT_LOG_ERROR ->
        level <> CRYPT_LOG_VERBOSE -> level <> CRYPT_LOG_DEBUG ->
        evs = [EvLog LOG_ERR ("Unknown libcryptsetup log level: " +:+ pretty level);
               EvLog LOG_ERR msg]).
Proof.
  unfold cryptsetup_log_glue, after_call. run.
  destruct (Z.eqb_spec level CRYPT_LOG_NORMAL) as [-> | Hn].
  { eexists. split; [reflexivity |]. repeat split; try discriminate; congruence. }
  destruct (Z.eqb_spec level CRYPT_LOG_ERROR) as [-> | He].
  { eexists. split; [reflexivity |]. repeat split; try discriminate; congruence. }
  destruct (Z.eqb_spec level CRYPT_LOG_VERBOSE) as [-> | Hv].
  { eexists. split; [reflexivity |]. repeat split; try discriminate; congruence. }
  destruct (Z.eqb_spec level CRYPT_LOG_DEBUG) as [-> | Hd].
  { eexists. split; [reflexivity |]. repeat split; try discriminate; congruence. }
  eexists. split.
  - cbn [trace cryptsetup_dl loader backend]. rewrite <- app_assoc. reflexivity.
  - repeat split; congruence.
Qed.

Lemma log_glue_levels_witness :
  exists evs,
    cryptsetup_log_glue (-2) "Unlocking" (Reference.start true false true)
    = Some (tt, after_call (Reference.start true false true) Reference.header evs)
    /\ evs = [EvLog LOG_ERR "Unknown libcryptsetup log level: -2";
              EvLog LOG_ERR "Unlocking"].
Proof.
  destruct (log_glue_levels (H := Reference.collaborators true false)
                            (-2) "Unlocking" (Reference.start true false true))
    as (evs & Hrun & _ & _ & _ & _ & Hother).
  exists evs. split; [exact Hrun |].
  apply Hother; discriminate.
Defined.

(** ** Which errors reach the caller *)

Section Propagation.

Context `{Collaborators}.

(** When the gate fails, the three operations behind it return its error
    and leave the world as the gate left it. *)
Lemma gate_failure_is_returned (fuel : nat) (w : world) (r : Z) (w1 : world) :
  dlopen_cryptsetup fuel w = Some (r, w1) -> r < 0 ->
  (forall cd idx verify_type want_ret,
      cryptsetup_get_token_as_json fuel cd idx verify_type want_ret w
      = Some ((r, None), w1))
  /\ (forall cd v, cryptsetup_add_token_json fuel cd v w = Some (r, w1))
  /\ (forall cd, cryptsetup_set_minimal_pbkdf fuel cd w = Some (r, w1)).
Proof.
  intros Hg Hr. repeat split; intros.
  - rewrite (get_token_run _ _ _ _ _ _ _ _ Hg).
    destruct (Z.ltb_spec r 0); [reflexivity | lia].
  - rewrite (add_token_run _ _ _ _ _ _ Hg).
    destruct (Z.ltb_spec r 0); [reflexivity | lia].
  - rewrite (set_minimal_pbkdf_run _ _ _ _ _ Hg).
    destruct (Z.ltb_spec r 0); [reflexivity | lia].
Qed.

(** Behind an open gate, the error of the step that fails is the
    result. *)
Lemma step_failure_is_returned (fuel : nat) (w : world) (r0 : Z) (w1 : world) :
  dlopen_cryptsetup fuel w = Some (r0, w1) -> 0 <= r0 ->
  (forall cd e b,
      sym_crypt_set_pbkdf_type cd minimal_pbkdf (backend w1) = (e, b) -> e < 0 ->
      fst <$> cryptsetup_set_minimal_pbkdf fuel cd w = Some e)
  /\ (forall cd idx verify_type want_ret e text,
         sym_crypt_token_json_get (Some cd) idx (backend w1) = (e, text) -> e < 0 ->
         fst <$> cryptsetup_get_token_as_json fuel cd idx verify_type want_ret w
         = Some (e, None))
  /\ (forall cd idx verify_type want_ret r text e v,
         sym_crypt_token_json_get (Some cd) idx (backend w1) = (r, text) -> 0 <= r ->
         sd_json_parse text 0 = (e, v) -> e < 0 ->
         fst <$> cryptsetup_get_token_as_json fuel cd idx verify_type want_ret w
         = Some (e, None))
  /\ (forall cd v e text,
         sd_json_variant_format v 0 = (e, text) -> - 2 ^ 30 < e < 0 ->
         fst <$> cryptsetup_add_token_json fuel cd v w = Some e)
  /\ (forall cd v rf text e b,
         sd_json_variant_format v 0 = (rf, text) -> 0 <= rf ->
         sym_crypt_token_json_set cd CRYPT_ANY_TOKEN text (backend w1) = (e, b) ->
         - 2 ^ 30 < e < 0 ->
         fst <$> cryptsetup_add_token_json fuel cd v w = Some e).
Proof.
  intros Hg Hr0.
  assert (Hopen : (r0 <? 0) = false) by (apply Z.ltb_ge; lia).
  repeat split.
  - intros cd e b Hset He. rewrite (set_minimal_pbkdf_run _ _ _ _ _ Hg), Hopen, Hset.
    destruct (Z.ltb_spec e 0); [reflexivity | lia].
  - intros cd idx verify_type want_ret e text Hget He.
    rewrite (get_token_run _ _ _ _ _ _ _ _ Hg), Hopen. cbv zeta. rewrite Hget.
    destruct (Z.ltb_spec e 0); [reflexivity | lia].
  - intros cd idx verify_type want_ret r text e v Hget Hr Hp He.
    rewrite (get_token_run _ _ _ _ _ _ _ _ Hg), Hopen. cbv zeta. rewrite Hget.
    destruct (Z.ltb_spec r 0); [lia |]. rewrite Hp.
    destruct (Z.ltb_spec e 0); [reflexivity | lia].
  - intros cd v e text Hf He. rewrite (add_token_run _ _ _ _ _ _ Hg), Hopen, Hf.
    destruct (Z.ltb_spec e 0); [| lia].
    cbn. rewrite (log_errno_result_errno e He). reflexivity.
  - intros cd v rf text e b Hf Hrf Hset He.
    rewrite (add_token_run _ _ _ _ _ _ Hg), Hopen, Hf.
    destruct (Z.ltb_spec rf 0); [lia |]. rewrite Hset.
    destruct (Z.ltb_spec e 0); [| lia].
    cbn. rewrite (log_errno_result_errno e He). reflexivity.
Qed.

End Propagation.

(** C9: when the gate fails, [cryptsetup_enable_logging] returns all the
    same, having installed nothing: no log callback, no debug level, the
    backend as it was.  Every other operation hands its errors to the
    caller: the gate returns the error of the resolution helper, the
    operations behind the gate return the gate's error, or else the error
    of their step that failed, and [cryptsetup_get_keyslot_from_token]
    returns the error of [safe_atoi]. *)
Theorem enable_logging_swallows_gate_failure
        `{Collaborators} (safe_atoi : string -> Z * Z)
        (fuel : nat) (w : world) (r : Z) (w1 : world) (cd : option crypt_device) :
  dlopen_cryptsetup fuel w = Some (r, w1) -> r < 0 ->
  (cryptsetup_enable_logging fuel cd w = Some (tt, w1)
   /\ backend w1 = backend w
   /\ Forall (fun e => is_log_install e = false) (new_events w w1))
  /\ (HAVE_LIBCRYPTSETUP = true ->
      fst (fst (dlopen_many_sym_or_warn (cryptsetup_dl w) (loader w))) = r)
  /\ ((forall cd' idx verify_type want_ret,
          cryptsetup_get_token_as_json fuel cd' idx verify_type want_ret w
          = Some ((r, None), w1))
      /\ (forall cd' v, cryptsetup_add_token_json fuel cd' v w = Some (r, w1))
      /\ (forall cd', cryptsetup_set_minimal_pbkdf fuel cd' w = Some (r, w1)))
  /\ (forall wo ro wo1,
         dlopen_cryptsetup fuel wo = Some (ro, wo1) -> 0 <= ro ->
         (forall cd' e b,
             sym_crypt_set_pbkdf_type cd' minimal_pbkdf (backend wo1) = (e, b) ->
             e < 0 ->
             fst <$> cryptsetup_set_minimal_pbkdf fuel cd' wo = Some e)
         /\ (forall cd' idx verify_type want_ret e text,
                sym_crypt_token_json_get (Some cd') idx (backend wo1) = (e, text) ->
                e < 0 ->
                fst <$> cryptsetup_get_token_as_json fuel cd' idx verify_type want_ret wo
                = Some (e, None))
         /\ (forall cd' idx verify_type want_ret r' text e v,
                sym_crypt_token_json_get (Some cd') idx (backend wo1) = (r', text) ->
                0 <= r' ->
                sd_json_parse text 0 = (e, v) -> e < 0 ->
                fst <$> cryptsetup_get_token_as_json fuel cd' idx verify_type want_ret wo
                = Some (e, None))
         /\ (forall cd' v e text,
                sd_json_variant_format v 0 = (e, text) -> - 2 ^ 30 < e < 0 ->
                fst <$> cryptsetup_add_token_json fuel cd' v wo = Some e)
         /\ (forall cd' v rf text e b,
                sd_json_variant_format v 0 = (rf, text) -> 0 <= rf ->
                sym_crypt_token_json_set cd' CRYPT_ANY_TOKEN text (backend wo1) = (e, b) ->
                - 2 ^ 30 < e < 0 ->
                fst <$> cryptsetup_add_token_json fuel cd' v wo = Some e))
  /\ (forall v s e n,
         sd_json_variant_by_key v "keyslots" = Some (JArray [JString s]) ->
         safe_atoi s = (e, n) -> e < 0 ->
         cryptsetup_get_keyslot_from_token safe_atoi v = e).
Proof.
  intros Hg Hr. split; [| split; [| split; [| split]]].
  - destruct (gate_failure_effect _ _ _ _ Hg Hr) as (Hb & e & Ht & Hi & _).
    split; [| split; [exact Hb |]].
    + run. rewrite Hg. destruct (Z.ltb_spec r 0); [reflexivity | lia].
    + unfold new_events. rewrite Ht, drop_app_length. repeat constructor. exact Hi.
  - intros Hc. pose proof (gate_failure_inv _ _ _ _ Hg Hr) as Hi.
    rewrite Hc in Hi. destruct Hi as (d & l & -> & _). reflexivity.
  - exact (gate_failure_is_returned _ _ _ _ Hg Hr).
  - intros wo ro wo1 Hgo Hro. exact (step_failure_is_returned _ _ _ _ Hgo Hro).
  - intros v s e n Hk Hs He. rewrite (keyslot_of_singleton safe_atoi v s Hk), Hs.
    destruct (Z.ltb_spec e 0); [reflexivity | lia].
Qed.

Lemma enable_logging_swallows_gate_failure_witness :
  cryptsetup_enable_logging 2 (Some 0%N) (Reference.failed 0)
  = Some (tt, Reference.failed 1)
  /\ backend (Reference.failed 1) = Reference.header
  /\ Reference.log_callback_set (backend (Reference.failed 1)) = false
  /\ cryptsetup_set_minimal_pbkdf 2 (Some 0%N) (Reference.failed 0)
     = Some (Unsupported, Reference.failed 1).
Proof.
  pose proof (enable_logging_swallows_gate_failure
                (H := Reference.collaborators true false) Reference.safe_atoi
                2 (Reference.failed 0) Unsupported (Reference.failed 1) (Some 0%N)
                eq_refl eq_refl) as (Hinstall & _ & Hgate & _).
  split; [exact (proj1 Hinstall) |]. split; [reflexivity |].
  split; [reflexivity |]. exact (proj2 (proj2 Hgate) (Some 0%N)).
Defined.

(** C10: [cryptsetup_get_keyslot_from_token] takes the JSON value and
    nothing of the world: the gate is not consulted.  In a world in which
    the gate fails, the operations behind it return the gate's error and
    do nothing else, while the keyslot of a token is still found; and as
    long as [safe_atoi] has no such error, its result is never
    Unsupported. *)
Theorem keyslot_from_token_skips_gate
        `{Collaborators} (safe_atoi : string -> Z * Z)
        (fuel : nat) (w : world) (r : Z) (w1 : world) (v : sd_json_variant) :
  (forall s, fst (safe_atoi s) <> Unsupported) ->
  dlopen_cryptsetup fuel w = Some (r, w1) -> r < 0 ->
  ((forall cd idx verify_type want_ret,
       cryptsetup_get_token_as_json fuel cd idx verify_type want_ret w
       = Some ((r, None), w1))
   /\ (forall cd tv, cryptsetup_add_token_json fuel cd tv w = Some (r, w1))
   /\ (forall cd, cryptsetup_set_minimal_pbkdf fuel cd w = Some (r, w1)))
  /\ cryptsetup_get_keyslot_from_token safe_atoi v <> Unsupported
  /\ (forall s r' n,
         sd_json_variant_by_key v "keyslots" = Some (JArray [JString s]) ->
         safe_atoi s = (r', n) -> 0 <= r' -> 0 <= n ->
         cryptsetup_get_keyslot_from_token safe_atoi v = n).
Proof.
  intros Hcodes Hg Hr. split; [exact (gate_failure_is_returned _ _ _ _ Hg Hr) |].
  split.
  - pose proof (keyslot_results safe_atoi v) as Hres. cbv zeta in Hres.
    unfold Unsupported, EOPNOTSUPP, ENOENT, EMEDIUMTYPE, EINVAL in *.
    destruct Hres as [Hk | [Hk | [Hk | [Hk | (s & Hk & _)]]]]; try lia.
    rewrite Hk. apply Hcodes.
  - intros s r' n Hk Hs Hr' Hn. rewrite (keyslot_of_singleton safe_atoi v s Hk), Hs.
    destruct (Z.ltb_spec r' 0); [lia |].
    destruct (Z.ltb_spec n 0); [lia | reflexivity].
Qed.

Lemma keyslot_from_token_skips_gate_witness :
  cryptsetup_get_token_as_json 2 0%N 1 None true (Reference.failed 0)
  = Some ((Unsupported, None), Reference.failed 1)
  /\ cryptsetup_add_token_json 2 (Some 0%N) Reference.token_tpm2 (Reference.failed 0)
     = Some (Unsupported, Reference.failed 1)
  /\ cryptsetup_get_keyslot_from_token Reference.safe_atoi Reference.token_tpm2 = 3.
Proof.
  pose proof (keyslot_from_token_skips_gate
                (H := Reference.collaborators true false) Reference.safe_atoi
                2 (Reference.failed 0) Unsupported (Reference.failed 1)
                Reference.token_tpm2) as Hthm.
  destruct Hthm as (Hgate & _ & Hvalue).
  - intros s Hs.
    destruct (ReferenceFacts.safe_atoi_codes s) as [Hc | [Hc | Hc]];
      rewrite Hc in Hs; discriminate Hs.
  - reflexivity.
  - reflexivity.
  - split; [exact (proj1 Hgate 0%N 1 None true) |].
    split; [exact (proj1 (proj2 Hgate) (Some 0%N) Reference.token_tpm2) |].
    apply (Hvalue "3" 0 3); [reflexivity | reflexivity | lia | lia].
Defined.


(** * Further properties of the gate *)

Section GateRuns.

Context `{Collaborators}.

(** With the handle set, a call of the gate asks the helper, is answered
    0 and returns it. *)
Lemma gate_loaded_run (fuel : nat) (w : world) (h : dl_handle) :
  HAVE_LIBCRYPTSETUP = true ->
  (forall h l, dlopen_many_sym_or_warn (Some h) l = (0, Some h, l)) ->
  cryptsetup_dl w = Some h ->
  dlopen_cryptsetup (S fuel) w
  = Some (0, after_call w (backend w) [EvResolve 0]).
Proof.
  intros Hc Hloaded Hdl.
  rewrite (gate_no_success fuel w 0 (Some h) (loader w) Hc);
    [| rewrite Hdl; apply Hloaded | lia].
  unfold after_call. rewrite Hdl. reflexivity.
Qed.

(** The call on which the helper reports a fresh load. *)
Lemma gate_first_load_run (fuel : nat) (w : world) (r0 : Z) d l :
  HAVE_LIBCRYPTSETUP = true -> loader_contract ->
  dlopen_many_sym_or_warn (cryptsetup_dl w) (loader w) = (r0, d, l) ->
  0 < r0 ->
  dlopen_cryptsetup (S (S fuel)) w
  = Some (1, mk_world d l
                      (sym_crypt_set_debug_level
                         build_debug_level
                         (sym_crypt_set_log_callback None (backend w)))
                      (trace w ++ [EvResolve r0; EvResolve 0;
                                   EvSetLogCallback None;
                                   EvSetDebugLevel build_debug_level])).
Proof.
  intros Hc [Hloaded Hset] Hh Hr0.
  pose proof (Hset _ _ _ _ _ Hh Hr0) as Hd.
  destruct d as [h |]; [| congruence].
  cbn [dlopen_cryptsetup]. rewrite Hc. run. rewrite Hh.
  destruct (Z.leb_spec r0 0); [lia |]. cbn [cryptsetup_dl loader].
  rewrite Hloaded. cbn. unfold build_debug_level.
  rewrite <- !app_assoc. reflexivity.
Qed.

Lemma log_errno_result_negative (error : Z) : log_errno_result error < 0.
Proof.
  unfold log_errno_result. cbv zeta.
  destruct (Z.ltb_spec (- ERRNO_VALUE error) 0); [assumption |].
  unfold ESHUTDOWN. lia.
Qed.

End GateRuns.

(** X1: once the library is loaded (the handle set, the helper keeping its
    contract), every call of the gate returns 0 after one question to the
    helper; it installs nothing again and leaves libcryptsetup, the handle
    and the loader as they were, so the same holds for the call after. *)
Theorem dlopen_cryptsetup_success_is_cached
        `{Collaborators} (fuel : nat) (w : world) (h : dl_handle) :
  HAVE_LIBCRYPTSETUP = true -> loader_contract ->
  cryptsetup_dl w = Some h ->
  exists w',
    dlopen_cryptsetup (S fuel) w = Some (0, w')
    /\ new_events w w' = [EvResolve 0]
    /\ backend w' = backend w
    /\ loader w' = loader w
    /\ cryptsetup_dl w' = Some h.
Proof.
  intros Hc [Hloaded _] Hdl.
  rewrite (gate_loaded_run fuel w h Hc Hloaded Hdl).
  eexists. split; [reflexivity |]. split; [apply new_events_app |].
  repeat split. exact Hdl.
Qed.

Lemma dlopen_cryptsetup_success_is_cached_witness :
  exists w',
    dlopen_cryptsetup 1 Reference.loaded = Some (0, w')
    /\ new_events Reference.loaded w' = [EvResolve 0]
    /\ backend w' = backend Reference.loaded
    /\ loader w' = loader Reference.loaded
    /\ cryptsetup_dl w' = Some 1%N.
Proof.
  exact (dlopen_cryptsetup_success_is_cached
           (H := Reference.collaborators true false)
           0 Reference.loaded 1%N eq_refl
           (ReferenceFacts.loader_contract_holds true false) eq_refl).
Defined.

(** X2: the call on which the helper reports a fresh load returns 1.  It
    asks the helper twice (the second time from within
    [cryptsetup_enable_logging], answered 0), then installs the log
    callback for no device and sets the debug level of the build, once
    each and in that order; nothing else is called. *)
Theorem dlopen_cryptsetup_first_load
        `{Collaborators} (fuel : nat) (w : world) (r0 : Z) d l :
  HAVE_LIBCRYPTSETUP = true -> loader_contract ->
  dlopen_many_sym_or_warn (cryptsetup_dl w) (loader w) = (r0, d, l) ->
  0 < r0 ->
  exists w',
    dlopen_cryptsetup (S (S fuel)) w = Some (1, w')
    /\ new_events w w'
       = [EvResolve r0; EvResolve 0; EvSetLogCallback None;
          EvSetDebugLevel (if DEBUG_LOGGING then CRYPT_DEBUG_ALL
                           else CRYPT_DEBUG_NONE)]
    /\ backend w'
       = sym_crypt_set_debug_level
           (if DEBUG_LOGGING then CRYPT_DEBUG_ALL else CRYPT_DEBUG_NONE)
           (sym_crypt_set_log_callback None (backend w))
    /\ cryptsetup_dl w' = d /\ d <> None /\ loader w' = l.
Proof.
  intros Hc Hct Hh Hr0.
  rewrite (gate_first_load_run fuel w r0 d l Hc Hct Hh Hr0).
  eexists. split; [reflexivity |]. split; [apply new_events_app |].
  repeat split. exact (success_sets_handle Hct _ _ _ _ _ Hh Hr0).
Qed.

Lemma dlopen_cryptsetup_first_load_witness :
  exists w',
    dlopen_cryptsetup 2 (Reference.start true true true) = Some (1, w')
    /\ new_events (Reference.start true true true) w'
       = [EvResolve 1; EvResolve 0; EvSetLogCallback None;
          EvSetDebugLevel CRYPT_DEBUG_ALL]
    /\ Reference.log_callback_set (backend w') = true
    /\ Reference.debug_level (backend w') = CRYPT_DEBUG_ALL
    /\ cryptsetup_dl w' = Some 1%N.
Proof.
  destruct (dlopen_cryptsetup_first_load
              (H := Reference.collaborators true true)
              0 (Reference.start true true true) 1 (Some 1%N)
              (Reference.mk_loader true 1) eq_refl
              (ReferenceFacts.loader_contract_holds true true) eq_refl
              ltac:(lia))
    as (w' & Hrun & Hnew & Hb & Hdl & _ & _).
  exists w'. split; [exact Hrun |]. split; [exact Hnew |].
  split; [exact (f_equal Reference.log_callback_set Hb) |].
  split; [exact (f_equal Reference.debug_level Hb) | exact Hdl].
Defined.

(** X3: with a helper that keeps its contract the mutual recursion of
    [dlopen_cryptsetup] and [cryptsetup_enable_logging] ends at the second
    level: the gate returns for every fuel from 2 on, always with the same
    result and world, and the result is at most 1. *)
Theorem dlopen_cryptsetup_terminates
        `{Collaborators} (w : world) :
  loader_contract ->
  exists r w1,
    r <= 1
    /\ forall fuel, dlopen_cryptsetup (S (S fuel)) w = Some (r, w1).
Proof.
  intros Hct.
  destruct HAVE_LIBCRYPTSETUP eqn:Hc.
  - destruct (dlopen_many_sym_or_warn (cryptsetup_dl w) (loader w))
      as [[r0 d] l] eqn:Hh.
    destruct (Z.leb_spec r0 0) as [Hle | Hgt].
    + do 2 eexists. split; [| intros fuel; apply (gate_no_success _ w r0 d l Hc Hh Hle)].
      lia.
    + do 2 eexists. split; [| intros fuel; apply (gate_first_load_run fuel w r0 d l Hc Hct Hh Hgt)].
      lia.
  - do 2 eexists. split; [| intros fuel; apply (gate_not_compiled _ w Hc)].
    unfold EOPNOTSUPP. lia.
Qed.

Lemma dlopen_cryptsetup_terminates_witness :
  exists r w1,
    r <= 1
    /\ forall fuel,
        dlopen_cryptsetup (S (S fuel)) (Reference.start true false true)
        = Some (r, w1).
Proof.
  exact (dlopen_cryptsetup_terminates
           (H := Reference.collaborators true false)
           (Reference.start true false true)
           (ReferenceFacts.loader_contract_holds true false)).
Defined.

(** X4: the check on the handle is what ends the recursion.  With a helper
    that reports a fresh load on every call, the gate calls
    [cryptsetup_enable_logging], which calls the gate, without end: no
    amount of fuel lets it return. *)
Theorem dlopen_cryptsetup_needs_the_handle_check
        `{Collaborators} (fuel : nat) :
  HAVE_LIBCRYPTSETUP = true ->
  (forall d l, 0 < fst (fst (dlopen_many_sym_or_warn d l))) ->
  forall w, dlopen_cryptsetup fuel w = None.
Proof.
  intros Hc Hfresh. induction fuel as [| fuel IH]; intros w; [reflexivity |].
  cbn [dlopen_cryptsetup]. rewrite Hc. run.
  pose proof (Hfresh (cryptsetup_dl w) (loader w)) as Hr0.
  destruct (dlopen_many_sym_or_warn (cryptsetup_dl w) (loader w)) as [[r0 d] l].
  cbn [fst] in Hr0. destruct (Z.leb_spec r0 0); [lia |].
  rewrite IH. reflexivity.
Qed.

Lemma dlopen_cryptsetup_needs_the_handle_check_witness :
  dlopen_cryptsetup 50 Scenarios.restless_start = None.
Proof.
  apply (dlopen_cryptsetup_needs_the_handle_check (H := Scenarios.restless) 50);
    [reflexivity |].
  intros d l. cbn. lia.
Defined.

Section GateInvariant.

Context `{Collaborators}.

Lemma gate_events_ok (fuel : nat) :
  forall (w : world) (r : Z) (w1 : world),
    dlopen_cryptsetup fuel w = Some (r, w1) ->
    exists evs, trace w1 = trace w ++ evs /\ Forall gate_event_ok evs.
Proof.
  induction fuel as [| fuel IH]; intros w r w1 Hg; [discriminate |].
  destruct HAVE_LIBCRYPTSETUP eqn:Hc.
  - cbn [dlopen_cryptsetup] in Hg. rewrite Hc in Hg. run.
    destruct (dlopen_many_sym_or_warn (cryptsetup_dl w) (loader w))
      as [[r0 d] l].
    assert (Hres : gate_event_ok (EvResolve r0)) by exact Hc.
    destruct (r0 <=? 0).
    + injection Hg as <- <-. exists [EvResolve r0]. cbn [trace].
      split; [reflexivity | repeat constructor; exact Hres].
    + destruct (dlopen_cryptsetup fuel _) as [[r1 w2] |] eqn:Hn;
        [| discriminate].
      destruct (IH _ _ _ Hn) as (evs & Ht & Hall). cbn [trace] in Ht.
      destruct (r1 <? 0).
      * injection Hg as <- <-. exists (EvResolve r0 :: evs).
        rewrite Ht, <- app_assoc. split; [reflexivity |].
        constructor; assumption.
      * injection Hg as <- <-. cbn [trace].
        eexists (EvResolve r0 :: evs ++ [_; _]).
        rewrite Ht. rewrite <- !app_assoc. cbn [app].
        split; [reflexivity |].
        constructor; [exact Hres |]. apply Forall_app. split; [exact Hall |].
        repeat constructor.
  - rewrite (gate_not_compiled _ w Hc) in Hg. injection Hg as <- <-.
    eexists. cbn [trace]. split; [reflexivity |].
    repeat constructor. exact Hc.
Qed.

End GateInvariant.

(** X5: what a returning call of the gate can have done and returned.  In
    a build with libcryptsetup the result is the helper's answer when that
    is not above 0, and 1 for every answer above 0; the gate logs nothing
    itself, and whatever it installs is the log callback for no device and
    the debug level of the build.  In a build without libcryptsetup the
    result is -EOPNOTSUPP and the one thing done is to log that at error
    level.  In neither build is a token or a PBKDF type touched. *)
Theorem dlopen_cryptsetup_invariant
        `{Collaborators} (fuel : nat) (w : world) (r : Z) (w1 : world) :
  dlopen_cryptsetup fuel w = Some (r, w1) ->
  (if HAVE_LIBCRYPTSETUP then
     let r0 := fst (fst (dlopen_many_sym_or_warn (cryptsetup_dl w) (loader w))) in
     (r0 <= 0 /\ r = r0) \/ (0 < r0 /\ r = 1)
   else
     r = - EOPNOTSUPP
     /\ new_events w w1
        = [EvLog LOG_ERR "cryptsetup support is not compiled in."]
     /\ backend w1 = backend w)
  /\ (forall e, In e (new_events w w1) ->
        match e with
        | EvResolve _ => HAVE_LIBCRYPTSETUP = true
        | EvLog _ _ => HAVE_LIBCRYPTSETUP = false
        | EvSetLogCallback cd => cd = None
        | EvSetDebugLevel level =>
            level = if DEBUG_LOGGING then CRYPT_DEBUG_ALL else CRYPT_DEBUG_NONE
        | EvSetPbkdfType _ _ | EvTokenJsonGet _ _ | EvTokenJsonSet _ _ _ => False
        end).
Proof.
  intros Hg. split.
  - destruct fuel as [| fuel]; [discriminate |].
    destruct HAVE_LIBCRYPTSETUP eqn:Hc.
    + destruct (dlopen_many_sym_or_warn (cryptsetup_dl w) (loader w))
        as [[r0 d] l] eqn:Hh.
      cbn [fst]. destruct (Z.leb_spec r0 0) as [Hle | Hgt].
      * rewrite (gate_no_success fuel w r0 d l Hc Hh Hle) in Hg.
        injection Hg as <- <-. auto.
      * pose proof (gate_success_is_1 fuel w r0 d l _ Hc Hh Hgt Hg) as H1.
        cbn [fst] in H1. auto.
    + rewrite (gate_not_compiled fuel w Hc) in Hg. injection Hg as <- <-.
      split; [reflexivity |]. split; [apply new_events_app | reflexivity].
  - destruct (gate_events_ok _ _ _ _ Hg) as (evs & Ht & Hall).
    unfold new_events. rewrite Ht, drop_app_length.
    intros e Hin. rewrite Forall_forall in Hall.
    apply list_elem_of_In, Hall in Hin.
    destruct e; cbn in Hin; try assumption; tauto.
Qed.

Lemma dlopen_cryptsetup_invariant_witness :
  (forall e, In e (new_events (Reference.start true false true) Reference.loaded) ->
     match e with
     | EvResolve _ => True
     | EvSetLogCallback cd => cd = None
     | EvSetDebugLevel level => level = CRYPT_DEBUG_NONE
     | _ => False
     end)
  /\ dlopen_cryptsetup 1 (Reference.start false false true)
     = Some (- EOPNOTSUPP,
             after_call (Reference.start false false true) Reference.header
                        [EvLog LOG_ERR "cryptsetup support is not compiled in."]).
Proof.
  split.
  - intros e Hin.
    pose proof (proj2 (dlopen_cryptsetup_invariant
                         (H := Reference.collaborators true false)
                         2 (Reference.start true false true) 1 Reference.loaded
                         eq_refl) e Hin) as He.
    destruct e; cbn in He; try exact I; try assumption; discriminate He.
  - reflexivity.
Defined.

(** X6: behind an open gate [cryptsetup_enable_logging] installs the log
    callback for exactly the device it was given, or for none when given
    NULL, then sets the debug level to CRYPT_DEBUG_ALL in a build with
    debug logging and to CRYPT_DEBUG_NONE in any other; these two calls,
    in this order, are all it adds to what the gate did. *)
Theorem enable_logging_installs
        `{Collaborators} (fuel : nat) (cd : option crypt_device)
        (w : world) (r0 : Z) (w1 : world) :
  dlopen_cryptsetup fuel w = Some (r0, w1) -> 0 <= r0 ->
  exists w',
    cryptsetup_enable_logging fuel cd w = Some (tt, w')
    /\ new_events w1 w'
       = [EvSetLogCallback cd;
          EvSetDebugLevel (if DEBUG_LOGGING then CRYPT_DEBUG_ALL
                           else CRYPT_DEBUG_NONE)]
    /\ backend w'
       = sym_crypt_set_debug_level
           (if DEBUG_LOGGING then CRYPT_DEBUG_ALL else CRYPT_DEBUG_NONE)
           (sym_crypt_set_log_callback cd (backend w1))
    /\ cryptsetup_dl w' = cryptsetup_dl w1 /\ loader w' = loader w1.
Proof.
  intros Hg Hr0. run. rewrite Hg.
  destruct (Z.ltb_spec r0 0); [lia |].
  eexists. split; [reflexivity |]. cbn [trace backend cryptsetup_dl loader].
  split; [| auto].
  unfold new_events. cbn [trace]. rewrite <- app_assoc. apply drop_app_length.
Qed.

Lemma enable_logging_installs_witness :
  exists w',
    cryptsetup_enable_logging 1 (Some 5%N) Reference.loaded = Some (tt, w')
    /\ new_events
         (after_call Reference.loaded (backend Reference.loaded) [EvResolve 0]) w'
       = [EvSetLogCallback (Some 5%N); EvSetDebugLevel CRYPT_DEBUG_NONE]
    /\ Reference.log_callback_set (backend w') = true.
Proof.
  destruct (enable_logging_installs
              (H := Reference.collaborators true false)
              1 (Some 5%N) Reference.loaded 0
              (after_call Reference.loaded (backend Reference.loaded) [EvResolve 0])
              eq_refl ltac:(lia))
    as (w' & Hrun & Hnew & Hb & _).
  exists w'. split; [exact Hrun |]. split; [exact Hnew |].
  exact (f_equal Reference.log_callback_set Hb).
Defined.


(** * Further properties of the token operations *)

Section TokenRuns.

Context `{Collaborators}.

(** The [if (verify_type)] block lets a token through exactly when no type
    is to be verified or the token's "type" member is that string. *)
Lemma verify_token_type_passes (v : sd_json_variant) (verify_type : option string) :
  verify_token_type v verify_type = None
  <-> (forall t, verify_type = Some t ->
                 sd_json_variant_by_key v "type" = Some (JString t)).
Proof.
  unfold verify_token_type. destruct verify_type as [t |].
  - destruct (sd_json_variant_by_key v "type") as [w |].
    + destruct w as [| b | z | s | elems | fields]; cbn;
        try (split; [discriminate | intros Hall; specialize (Hall t eq_refl); discriminate]).
      destruct (String.eqb_spec s t) as [-> | Hne]; cbn.
      * split; [intros _ t' [= <-]; reflexivity | reflexivity].
      * split; [discriminate |]. intros Hall.
        specialize (Hall t eq_refl). congruence.
    + split; [discriminate |]. intros Hall.
      specialize (Hall t eq_refl). discriminate.
  - split; [intros _ t; discriminate | reflexivity].
Qed.

Lemma verify_token_type_error (v : sd_json_variant)
      (verify_type : option string) (e : Z) :
  verify_token_type v verify_type = Some e -> e < 0.
Proof.
  unfold verify_token_type. destruct verify_type as [t |]; [| discriminate].
  destruct (sd_json_variant_by_key v "type") as [w |].
  - destruct (negb _); [| discriminate]. intros [= <-].
    unfold EMEDIUMTYPE. lia.
  - intros [= <-]. unfold EINVAL. lia.
Qed.

End TokenRuns.

(** X7: [cryptsetup_get_token_as_json] only reads.  After its call of the
    gate it asks libcryptsetup for the token at most once and calls
    nothing else: libcryptsetup, the handle and the loader are as the gate
    left them, and from start to end no token is written and no PBKDF type
    is set. *)
Theorem get_token_only_reads
        `{Collaborators} (fuel : nat) (cd : crypt_device) (idx : Z)
        (verify_type : option string) (want_ret : bool)
        (w : world) (r0 : Z) (w1 : world) :
  dlopen_cryptsetup fuel w = Some (r0, w1) ->
  exists res w',
    cryptsetup_get_token_as_json fuel cd idx verify_type want_ret w
    = Some (res, w')
    /\ backend w' = backend w1
    /\ cryptsetup_dl w' = cryptsetup_dl w1
    /\ loader w' = loader w1
    /\ (if r0 <? 0 then new_events w1 w' = []
        else new_events w1 w' = [EvTokenJsonGet (Some cd) idx])
    /\ (forall e, In e (new_events w w') ->
                  is_token_set e = false
                  /\ forall cd' p, e <> EvSetPbkdfType cd' p).
Proof.
  intros Hg. rewrite (get_token_run _ _ _ _ _ _ _ _ Hg).
  assert (Hgate : forall e, In e (new_events w w1) ->
                            is_token_set e = false
                            /\ forall cd' p, e <> EvSetPbkdfType cd' p).
  { destruct (gate_trace _ _ _ _ Hg) as (evs & Ht & Hall & _).
    unfold new_events. rewrite Ht, drop_app_length. intros e Hin.
    rewrite Forall_forall in Hall. apply list_elem_of_In, Hall in Hin.
    destruct e; try discriminate Hin; split; try reflexivity; discriminate. }
  destruct (r0 <? 0).
  - do 2 eexists. split; [reflexivity |]. repeat split.
    + apply new_events_refl.
    + apply Hgate; assumption.
    + apply Hgate; assumption.
  - cbv zeta.
    assert (Hread : forall e,
               In e (new_events w (after_call w1 (backend w1)
                                              [EvTokenJsonGet (Some cd) idx])) ->
               is_token_set e = false
               /\ forall cd' p, e <> EvSetPbkdfType cd' p).
    { destruct (new_events_after_gate
                  _ _ _ _ (backend w1) [EvTokenJsonGet (Some cd) idx] Hg)
        as (gate_evs & _ & Hn1 & ->).
      intros e Hin. apply in_app_or in Hin as [Hin | [<- | []]].
      - apply Hgate. rewrite Hn1. exact Hin.
      - split; [reflexivity | discriminate]. }
    destruct (sym_crypt_token_json_get (Some cd) idx (backend w1)) as [r text].
    destruct (r <? 0);
      [| destruct (sd_json_parse text 0) as [rp v];
         destruct (rp <? 0);
         [| destruct (verify_token_type v verify_type)]];
      (do 2 eexists; split; [reflexivity |]; repeat split;
       try apply new_events_app; apply Hread; assumption).
Qed.

Lemma get_token_only_reads_witness :
  exists res w',
    cryptsetup_get_token_as_json 1 0%N 1 None true Reference.loaded
    = Some (res, w')
    /\ Reference.tokens (backend w') = Reference.tokens Reference.header
    /\ Reference.pbkdf (backend w') = None.
Proof.
  destruct (get_token_only_reads
              (H := Reference.collaborators true false)
              1 0%N 1 None true Reference.loaded 0
              (after_call Reference.loaded (backend Reference.loaded) [EvResolve 0])
              eq_refl)
    as (res & w' & Hrun & Hb & _).
  exists res, w'. split; [exact Hrun |].
  split; [exact (f_equal Reference.tokens Hb) | exact (f_equal Reference.pbkdf Hb)].
Defined.

(** X8: the out-parameter of [cryptsetup_get_token_as_json] is written
    exactly on success.  With and without an out-parameter the call has
    the same result and the same effects; the result is never above 0,
    and a value is handed out if and only if the result is 0 and an
    out-parameter was given. *)
Theorem get_token_ret_only_on_success
        `{Collaborators} (fuel : nat) (cd : crypt_device) (idx : Z)
        (verify_type : option string)
        (w : world) (r0 : Z) (w1 : world) :
  dlopen_cryptsetup fuel w = Some (r0, w1) ->
  exists r ov w',
    cryptsetup_get_token_as_json fuel cd idx verify_type true w
    = Some ((r, ov), w')
    /\ cryptsetup_get_token_as_json fuel cd idx verify_type false w
       = Some ((r, None), w')
    /\ r <= 0
    /\ (ov <> None <-> r = 0).
Proof.
  intros Hg. rewrite !(get_token_run _ _ _ _ _ _ _ _ Hg).
  assert (Hfail : forall (r : Z) (w' : world),
             r < 0 ->
             exists r' ov w'',
               Some ((r, @None sd_json_variant), w') = Some ((r', ov), w'')
               /\ Some ((r, @None sd_json_variant), w') = Some ((r', None), w'')
               /\ r' <= 0 /\ (ov <> None <-> r' = 0)).
  { intros r w' Hr. exists r, None, w'.
    split; [reflexivity |]. split; [reflexivity |]. split; [lia |].
    split; [congruence | lia]. }
  destruct (Z.ltb_spec r0 0); [apply Hfail; assumption |].
  cbv zeta.
  destruct (sym_crypt_token_json_get (Some cd) idx (backend w1)) as [r text].
  destruct (Z.ltb_spec r 0); [apply Hfail; assumption |].
  destruct (sd_json_parse text 0) as [rp v].
  destruct (Z.ltb_spec rp 0); [apply Hfail; assumption |].
  destruct (verify_token_type v verify_type) as [e |] eqn:Hv.
  - apply Hfail. exact (verify_token_type_error _ _ _ Hv).
  - do 3 eexists. split; [reflexivity |]. split; [reflexivity |].
    split; [lia |]. split; [reflexivity | discriminate].
Qed.

Lemma get_token_ret_only_on_success_witness :
  exists r ov w',
    cryptsetup_get_token_as_json 1 0%N 0 (Some "systemd-tpm2") true Reference.loaded
    = Some ((r, ov), w')
    /\ cryptsetup_get_token_as_json 1 0%N 0 (Some "systemd-tpm2") false Reference.loaded
       = Some ((r, None), w')
    /\ r <= 0
    /\ (ov <> None <-> r = 0).
Proof.
  exact (get_token_ret_only_on_success
           (H := Reference.collaborators true false)
           1 0%N 0 (Some "systemd-tpm2") Reference.loaded 0
           (after_call Reference.loaded (backend Reference.loaded) [EvResolve 0])
           eq_refl).
Defined.

(** X9: when [cryptsetup_get_token_as_json] succeeds.  It returns 0 with
    the value [v] if and only if the gate let it through, libcryptsetup
    returned a text for the index, the text parsed to [v], and either no
    type was to be verified or the "type" member of [v] is that very
    string.  What it hands out is the parsed text of the stored token,
    unchanged. *)
Theorem get_token_success_iff
        `{Collaborators} (fuel : nat) (cd : crypt_device) (idx : Z)
        (verify_type : option string)
        (w : world) (r0 : Z) (w1 : world) (v : sd_json_variant) :
  dlopen_cryptsetup fuel w = Some (r0, w1) ->
  fst <$> cryptsetup_get_token_as_json fuel cd idx verify_type true w
  = Some (0, Some v)
  <-> (0 <= r0
       /\ 0 <= fst (sym_crypt_token_json_get (Some cd) idx (backend w1))
       /\ 0 <= fst (sd_json_parse
                      (snd (sym_crypt_token_json_get (Some cd) idx (backend w1))) 0)
       /\ snd (sd_json_parse
                 (snd (sym_crypt_token_json_get (Some cd) idx (backend w1))) 0) = v
       /\ (forall t, verify_type = Some t ->
                     sd_json_variant_by_key v "type" = Some (JString t))).
Proof.
  intros Hg. rewrite (get_token_run _ _ _ _ _ _ _ _ Hg).
  destruct (Z.ltb_spec r0 0).
  { split; [intros [= Hr _]; lia | intros (Hr & _); lia]. }
  cbv zeta.
  destruct (sym_crypt_token_json_get (Some cd) idx (backend w1)) as [r text].
  cbn [fst snd]. destruct (Z.ltb_spec r 0).
  { split; [intros [= Hr _]; lia | intros (_ & Hr & _); lia]. }
  destruct (sd_json_parse text 0) as [rp v0]. cbn [fst snd].
  destruct (Z.ltb_spec rp 0).
  { split; [intros [= Hr _]; lia | intros (_ & _ & Hr & _); lia]. }
  destruct (verify_token_type v0 verify_type) as [e |] eqn:Hv.
  - pose proof (verify_token_type_error _ _ _ Hv) as He. split.
    + intros [= He0 _]; lia.
    + intros (_ & _ & _ & <- & Ht).
      pose proof (proj2 (verify_token_type_passes _ _) Ht). congruence.
  - pose proof (proj1 (verify_token_type_passes _ _) Hv) as Hpass. split.
    + intros [= <-]. auto.
    + intros (_ & _ & _ & <- & _). reflexivity.
Qed.

Lemma get_token_success_iff_witness :
  fst <$> cryptsetup_get_token_as_json 1 0%N 1 (Some "systemd-tpm2") true
                                         Reference.loaded
  = Some (0, Some Reference.token_tpm2)
  /\ sd_json_variant_by_key Reference.token_tpm2 "type"
     = Some (JString "systemd-tpm2").
Proof.
  pose proof (get_token_success_iff
                (H := Reference.collaborators true false)
                1 0%N 1 (Some "systemd-tpm2") Reference.loaded 0
                (after_call Reference.loaded (backend Reference.loaded) [EvResolve 0])
                Reference.token_tpm2 eq_refl) as [Hto Hfrom].
  assert (Hrun : fst <$> cryptsetup_get_token_as_json
                           1 0%N 1 (Some "systemd-tpm2") true Reference.loaded
                 = Some (0, Some Reference.token_tpm2)).
  { apply Hfrom. split; [lia |]. split; [vm_compute; discriminate |].
    split; [vm_compute; discriminate |].
    split; [reflexivity |]. intros t [= <-]. reflexivity. }
  split; [exact Hrun |].
  exact (proj2 (proj2 (proj2 (proj2 (Hto Hrun)))) "systemd-tpm2" eq_refl).
Defined.

(** X10: the result of [cryptsetup_add_token_json] is never above 0: the
    index libcryptsetup allocated for the token is not reported.  It is 0
    if and only if the gate let the call through, the value was serialised
    and libcryptsetup accepted the write. *)
Theorem add_token_json_result
        `{Collaborators} (fuel : nat) (cd : option crypt_device)
        (v : sd_json_variant) (w : world) (r0 : Z) (w1 : world) :
  dlopen_cryptsetup fuel w = Some (r0, w1) ->
  exists r w',
    cryptsetup_add_token_json fuel cd v w = Some (r, w')
    /\ r <= 0
    /\ (r = 0
        <-> 0 <= r0
            /\ 0 <= fst (sd_json_variant_format v 0)
            /\ 0 <= fst (sym_crypt_token_json_set
                           cd CRYPT_ANY_TOKEN
                           (snd (sd_json_variant_format v 0)) (backend w1))).
Proof.
  intros Hg. rewrite (add_token_run _ _ _ _ _ _ Hg).
  destruct (Z.ltb_spec r0 0).
  { do 2 eexists. split; [reflexivity |]. split; [lia |].
    split; [lia | intros (Hr & _); lia]. }
  destruct (sd_json_variant_format v 0) as [rf text]. cbn [fst snd].
  destruct (Z.ltb_spec rf 0).
  { pose proof (log_errno_result_negative rf).
    do 2 eexists. split; [reflexivity |]. split; [lia |].
    split; [lia | intros (_ & Hr & _); lia]. }
  destruct (sym_crypt_token_json_set cd CRYPT_ANY_TOKEN text (backend w1))
    as [rs b]. cbn [fst].
  destruct (Z.ltb_spec rs 0).
  - pose proof (log_errno_result_negative rs).
    do 2 eexists. split; [reflexivity |]. split; [lia |].
    split; [lia | intros (_ & _ & Hr); lia].
  - do 2 eexists. split; [reflexivity |]. split; [lia |].
    split; [auto | reflexivity].
Qed.

Lemma add_token_json_result_witness :
  exists w',
    cryptsetup_add_token_json 1 (Some 0%N) Reference.token_tpm2 Reference.loaded
    = Some (0, w')
    /\ fst (Reference.crypt_token_json_set
              (Some 0%N) CRYPT_ANY_TOKEN
              (Reference.format Reference.token_tpm2)
              (backend Reference.loaded)) = 3.
Proof.
  destruct (add_token_json_result
              (H := Reference.collaborators true false)
              1 (Some 0%N) Reference.token_tpm2 Reference.loaded 0
              (after_call Reference.loaded (backend Reference.loaded) [EvResolve 0])
              eq_refl)
    as (r & w' & Hrun & _ & Hiff).
  assert (Hr : r = 0).
  { apply Hiff. split; [lia |]. split; vm_compute; discriminate. }
  subst r. exists w'. split; [exact Hrun | reflexivity].
Defined.

(** X11: a token written by [cryptsetup_add_token_json] is read back by
    [cryptsetup_get_token_as_json].  In a process with the library loaded,
    when the value serialises to a text that parses back to it and
    libcryptsetup stores the text at the index [i] it allocated, adding
    the value returns 0 and reading index [i] afterwards, with no type to
    verify, returns 0 and the value. *)
Theorem add_then_get_token
        `{Collaborators} (fuel : nat) (w : world) (h : dl_handle)
        (cd : crypt_device) (v : sd_json_variant)
        (rf : Z) (text : string) (i : Z) (b : backend_state) (r rp : Z) :
  HAVE_LIBCRYPTSETUP = true -> loader_contract ->
  cryptsetup_dl w = Some h ->
  sd_json_variant_format v 0 = (rf, text) -> 0 <= rf ->
  sym_crypt_token_json_set (Some cd) CRYPT_ANY_TOKEN text (backend w) = (i, b) ->
  0 <= i ->
  sym_crypt_token_json_get (Some cd) i b = (r, text) -> 0 <= r ->
  sd_json_parse text 0 = (rp, v) -> 0 <= rp ->
  exists w2 w3,
    cryptsetup_add_token_json (S fuel) (Some cd) v w = Some (0, w2)
    /\ cryptsetup_get_token_as_json (S fuel) cd i None true w2
       = Some ((0, Some v), w3)
    /\ backend w3 = b.
Proof.
  intros Hc [Hloaded _] Hdl Hf Hrf Hset Hi Hget Hr Hp Hrp.
  pose proof (gate_loaded_run fuel w h Hc Hloaded Hdl) as Hg.
  rewrite (add_token_run _ _ _ _ _ _ Hg), Hf.
  destruct (Z.ltb_spec 0 0); [lia |].
  destruct (Z.ltb_spec rf 0); [lia |].
  cbn [after_call backend]. rewrite Hset.
  destruct (Z.ltb_spec i 0); [lia |].
  eexists. eexists. split; [reflexivity |].
  match goal with
  | |- cryptsetup_get_token_as_json _ _ _ _ _ ?w2 = _ /\ _ =>
      assert (Hdl2 : cryptsetup_dl w2 = Some h) by exact Hdl;
      pose proof (gate_loaded_run fuel w2 h Hc Hloaded Hdl2) as Hg2;
      rewrite (get_token_run _ _ _ _ _ _ _ _ Hg2)
  end.
  destruct (Z.ltb_spec 0 0); [lia |]. cbv zeta.
  cbn [after_call backend]. rewrite Hget.
  destruct (Z.ltb_spec r 0); [lia |]. rewrite Hp.
  destruct (Z.ltb_spec rp 0); [lia |].
  cbn [verify_token_type]. split; reflexivity.
Qed.

Lemma add_then_get_token_witness :
  exists w2 w3,
    cryptsetup_add_token_json 1 (Some 0%N) Reference.token_tpm2 Reference.loaded
    = Some (0, w2)
    /\ cryptsetup_get_token_as_json 1 0%N 3 None true w2
       = Some ((0, Some Reference.token_tpm2), w3)
    /\ Reference.tokens (backend w3) !! 3
       = Some (Reference.format Reference.token_tpm2).
Proof.
  destruct (add_then_get_token
              (H := Reference.collaborators true false)
              0 Reference.loaded 1%N 0%N Reference.token_tpm2
              _ (Reference.format Reference.token_tpm2) 3 _ 3 0
              eq_refl (ReferenceFacts.loader_contract_holds true false)
              eq_refl eq_refl ltac:(vm_compute; discriminate)
              eq_refl ltac:(lia) eq_refl ltac:(lia) eq_refl ltac:(lia))
    as (w2 & w3 & Hadd & Hget & Hb).
  exists w2, w3. split; [exact Hadd |]. split; [exact Hget |].
  exact (f_equal (fun b => Reference.tokens b !! 3) Hb).
Defined.

(** * Further properties of the keyslot parser and of the token-path hook *)

(** X12: a result of [cryptsetup_get_keyslot_from_token] that is not
    negative is a keyslot the token really names: the "keyslots" member is
    then an array of exactly one string, [safe_atoi] accepted that string,
    and the result is the number it parsed. *)
Theorem keyslot_from_token_sound
        (safe_atoi : string -> Z * Z) (v : sd_json_variant) :
  0 <= cryptsetup_get_keyslot_from_token safe_atoi v ->
  exists s,
    sd_json_variant_by_key v "keyslots" = Some (JArray [JString s])
    /\ 0 <= fst (safe_atoi s)
    /\ snd (safe_atoi s) = cryptsetup_get_keyslot_from_token safe_atoi v.
Proof.
  unfold cryptsetup_get_keyslot_from_token, ENOENT, EMEDIUMTYPE, EINVAL.
  destruct (sd_json_variant_by_key v "keyslots") as [w |]; [| lia].
  destruct w as [| b | z | s | elems | fields];
    cbn [sd_json_variant_is_array negb orb]; try lia.
  cbn [sd_json_variant_elements].
  destruct (Z.eqb_spec (Z.of_nat (length elems)) 1) as [Hlen | Hlen];
    cbn [negb]; [| lia].
  destruct elems as [| w0 [| w1 elems]]; cbn [length] in Hlen; try lia.
  change (sd_json_variant_by_index (JArray [w0]) 0) with (Some w0).
  destruct w0 as [| b | z | s | elems | fields];
    cbn [sd_json_variant_is_string sd_json_variant_string negb]; try lia.
  destruct (safe_atoi s) as [r n] eqn:Hs.
  destruct (Z.ltb_spec r 0); [lia |].
  destruct (Z.ltb_spec n 0); [lia |].
  intros _. exists s. rewrite Hs. auto.
Qed.

Lemma keyslot_from_token_sound_witness :
  exists s,
    sd_json_variant_by_key Reference.token_tpm2 "keyslots"
    = Some (JArray [JString s])
    /\ 0 <= fst (Reference.safe_atoi s)
    /\ snd (Reference.safe_atoi s) = 3.
Proof.
  exact (keyslot_from_token_sound
           Reference.safe_atoi Reference.token_tpm2 ltac:(vm_compute; discriminate)).
Defined.

(** X13: in [my_crypt_token_external_path] the environment comes first.
    When SYSTEMD_CRYPTSETUP_TOKEN_PATH is set, its value is the result
    whatever the state of the library, which is not asked.  When it is not
    set and the library is not loaded, the result is NULL; and any other
    result is the answer of the original function, resolved in the loaded
    library. *)
Theorem token_path_environment_first
        (secure_getenv : string -> option string)
        (dlsym : dl_handle -> string -> option (unit -> option string))
        (dl : option dl_handle) :
  (forall e,
      secure_getenv "SYSTEMD_CRYPTSETUP_TOKEN_PATH" = Some e ->
      forall dlsym' dl',
        my_crypt_token_external_path secure_getenv dlsym' dl' = Some e)
  /\ (secure_getenv "SYSTEMD_CRYPTSETUP_TOKEN_PATH" = None -> dl = None ->
      my_crypt_token_external_path secure_getenv dlsym dl = None)
  /\ (forall p,
         my_crypt_token_external_path secure_getenv dlsym dl = Some p ->
         secure_getenv "SYSTEMD_CRYPTSETUP_TOKEN_PATH" <> Some p ->
         secure_getenv "SYSTEMD_CRYPTSETUP_TOKEN_PATH" = None
         /\ exists handle func,
             dl = Some handle
             /\ dlsym handle "crypt_token_external_path" = Some func
             /\ func tt = Some p).
Proof.
  unfold my_crypt_token_external_path. repeat split.
  - intros e He dlsym' dl'. rewrite He. reflexivity.
  - intros He ->. rewrite He. reflexivity.
  - destruct (secure_getenv "SYSTEMD_CRYPTSETUP_TOKEN_PATH"); [congruence | reflexivity].
  - destruct (secure_getenv "SYSTEMD_CRYPTSETUP_TOKEN_PATH"); [congruence |].
    destruct dl as [handle |]; [| discriminate].
    destruct (dlsym handle "crypt_token_external_path") as [func |] eqn:Hs;
      [| discriminate].
    eauto.
Qed.

Lemma token_path_environment_first_witness :
  my_crypt_token_external_path Scenarios.env_with_path Scenarios.exported (Some 1%N)
  = Some "/home/dev/build"
  /\ my_crypt_token_external_path Scenarios.env_empty Scenarios.exported None
     = None
  /\ my_crypt_token_external_path Scenarios.env_empty Scenarios.exported (Some 1%N)
     = Some "/usr/lib/cryptsetup".
Proof.
  pose proof (token_path_environment_first
                Scenarios.env_with_path Scenarios.exported None) as (Hset & _ & _).
  pose proof (token_path_environment_first
                Scenarios.env_empty Scenarios.exported None) as (_ & Hnone & _).
  split; [exact (Hset _ eq_refl Scenarios.exported (Some 1%N)) |].
  split; [exact (Hnone eq_refl eq_refl) | reflexivity].
Defined.
